(** * ask-era: query interpretation and data-request construction

    A shallow embedding of [src/app/query.service.ts] (class [QueryService]):
    [toDates], [toLocations], [toVariable], [createQuery], [toDataRequest].

    The JavaScript run-time the service leans on is modelled first, following
    ECMA-262: strings ([split], [startsWith]), [Date] (time values, calendar
    fields, [toISOString]) and Numbers (binary64, [Math.ceil], [Math.round],
    Number-to-string).  The collaborators that are injected into the service
    (entity extraction, Sugar's date parser, the keyword extractor, the
    stemmer, the geocoder) are Section variables. *)

From Stdlib Require Import ZArith Lia Ascii String List SpecFloat.
From stdpp Require Import base option list strings gmap.
From Stdlib Require Import Sorted.

Local Open Scope Z_scope.

(* ===================================================================== *)
(** ** JavaScript strings *)
(* ===================================================================== *)

Module JSString.

(** [s.split(sep)] for a one-character separator, the only form the
    service uses: ["a-b".split("-") = ["a","b"]], ["".split("-") = [""]]. *)
Fixpoint split (sep : ascii) (s : string) : list string :=
  match s with
  | EmptyString => [EmptyString]
  | String c s' =>
      if Ascii.eqb c sep then EmptyString :: split sep s'
      else match split sep s' with
           | hd :: tl => String c hd :: tl
           | [] => [String c EmptyString]
           end
  end.

(** [word.startsWith(stem)]. *)
Definition startsWith (word stem : string) : bool := String.prefix stem word.

(** Every character of [s] satisfies [p]. *)
Fixpoint all_chars (p : ascii -> bool) (s : string) : bool :=
  match s with
  | EmptyString => true
  | String c s' => p c && all_chars p s'
  end.

(** A character other than [sep]. *)
Definition is_not (sep : ascii) (c : ascii) : bool := negb (Ascii.eqb c sep).

Definition is_digit (c : ascii) : bool :=
  let n := nat_of_ascii c in (48 <=? n)%nat && (n <=? 57)%nat.

(** The decimal digit of [n mod 10]. *)
Definition digit (n : Z) : ascii := ascii_of_nat (48 + Z.to_nat (n mod 10)).

(** The last [k] decimal digits of [n], most significant first, prepended
    to [acc]: zero padding to width [k]. *)
Fixpoint pad_go (k : nat) (n : Z) (acc : string) : string :=
  match k with
  | O => acc
  | S k' => pad_go k' (n / 10) (String (digit n) acc)
  end.

Definition pad (k : nat) (n : Z) : string := pad_go k n EmptyString.

(** The number of decimal digits of [n >= 0], at most [S fuel]. *)
Fixpoint count_digits (fuel : nat) (n : Z) : nat :=
  match fuel with
  | O => 1%nat
  | S fuel' => if n <? 10 then 1%nat else S (count_digits fuel' (n / 10))
  end.

(** The decimal numeral of [n >= 0], without leading zeros. *)
Definition decimal (n : Z) : string :=
  pad (count_digits (Z.to_nat (Z.log2 n)) n) n.

End JSString.

(* ===================================================================== *)
(** ** JavaScript dates (ECMA-262, Date objects) *)
(* ===================================================================== *)

Module JSDate.
Import JSString.

Definition msPerDay : Z := 86400000.
Definition msPerHour : Z := 3600000.
Definition msPerMinute : Z := 60000.
Definition msPerSecond : Z := 1000.

(** The largest time value of a valid Date: 8.64e15 ms either side of the
    epoch. *)
Definition maxTime : Z := 8640000000000000.

Definition Day (t : Z) : Z := t / msPerDay.
Definition TimeWithinDay (t : Z) : Z := t mod msPerDay.

Definition DayFromYear (y : Z) : Z :=
  365 * (y - 1970) + (y - 1969) / 4 - (y - 1901) / 100 + (y - 1601) / 400.

Definition TimeFromYear (y : Z) : Z := msPerDay * DayFromYear y.

Definition DaysInYear (y : Z) : Z :=
  if negb (y mod 4 =? 0) then 365
  else if negb (y mod 100 =? 0) then 366
  else if negb (y mod 400 =? 0) then 365
  else 366.

(** The year that contains day number [d]: the largest [y] with
    [DayFromYear y <= d] (lemma [YearFromDay_spec]), computed over the
    400-year cycle that starts on 1601-01-01 (day -134774). *)
Definition YearFromDay (d : Z) : Z :=
  let n := d + 134774 in
  let q400 := n / 146097 in
  let r400 := n mod 146097 in
  let q100 := Z.min (r400 / 36524) 3 in
  let r100 := r400 - q100 * 36524 in
  let q4 := r100 / 1461 in
  let r4 := r100 mod 1461 in
  let q1 := Z.min (r4 / 365) 3 in
  1601 + 400 * q400 + 100 * q100 + 4 * q4 + q1.

Definition YearFromTime (t : Z) : Z := YearFromDay (Day t).

Definition InLeapYear (t : Z) : Z :=
  if DaysInYear (YearFromTime t) =? 366 then 1 else 0.

Definition DayWithinYear (t : Z) : Z := Day t - DayFromYear (YearFromTime t).

(** Month number, 0 for January to 11 for December. *)
Definition MonthFromTime (t : Z) : Z :=
  let d := DayWithinYear t in
  let l := InLeapYear t in
  if d <? 31 then 0
  else if d <? 59 + l then 1
  else if d <? 90 + l then 2
  else if d <? 120 + l then 3
  else if d <? 151 + l then 4
  else if d <? 181 + l then 5
  else if d <? 212 + l then 6
  else if d <? 243 + l then 7
  else if d <? 273 + l then 8
  else if d <? 304 + l then 9
  else if d <? 334 + l then 10
  else 11.

(** Day of the month, 1 to 31. *)
Definition DateFromTime (t : Z) : Z :=
  let d := DayWithinYear t in
  let l := InLeapYear t in
  match MonthFromTime t with
  | 0 => d + 1
  | 1 => d - 30
  | 2 => d - 58 - l
  | 3 => d - 89 - l
  | 4 => d - 119 - l
  | 5 => d - 150 - l
  | 6 => d - 180 - l
  | 7 => d - 211 - l
  | 8 => d - 242 - l
  | 9 => d - 272 - l
  | 10 => d - 303 - l
  | _ => d - 333 - l
  end.

Definition HourFromTime (t : Z) : Z := (t / msPerHour) mod 24.
Definition MinFromTime (t : Z) : Z := (t / msPerMinute) mod 60.
Definition SecFromTime (t : Z) : Z := (t / msPerSecond) mod 60.
Definition msFromTime (t : Z) : Z := t mod msPerSecond.

(** A Date object: its time value, [None] for NaN (an Invalid Date). *)
Record Date := mkDate { timeValue : option Z }.

Definition TimeClip (t : Z) : option Z :=
  if Z.abs t <=? maxTime then Some t else None.

(** [new Date(value)] for a Number that is an integer or NaN. *)
Definition newDate (v : option Z) : Date := mkDate (v ≫= TimeClip).

(** A Date is well formed when its time value is NaN or within range;
    every Date the run-time hands out is. *)
Definition wf_Date (d : Date) : Prop :=
  match timeValue d with
  | Some t => Z.abs t <= maxTime
  | None => True
  end.

Definition getTime (d : Date) : option Z := timeValue d.
Definition getUTCFullYear (d : Date) : option Z := YearFromTime <$> timeValue d.

(** The year field of the ISO format: four digits for 0..9999, otherwise a
    sign and six digits. *)
Definition isoYear (y : Z) : string :=
  if (0 <=? y) && (y <=? 9999) then pad 4 y
  else String (if y <? 0 then "-"%char else "+"%char) (pad 6 (Z.abs y)).

Definition isoDatePart (t : Z) : string :=
  isoYear (YearFromTime t) +:+ "-" +:+ pad 2 (MonthFromTime t + 1)
    +:+ "-" +:+ pad 2 (DateFromTime t).

Definition isoTimePart (t : Z) : string :=
  pad 2 (HourFromTime t) +:+ ":" +:+ pad 2 (MinFromTime t) +:+ ":"
    +:+ pad 2 (SecFromTime t) +:+ "." +:+ pad 3 (msFromTime t) +:+ "Z".

(** [date.toISOString()]: [None] stands for the RangeError thrown on an
    Invalid Date. *)
Definition toISOString (d : Date) : option string :=
  t ← timeValue d; Some (isoDatePart t +:+ "T" +:+ isoTimePart t).

(** [MakeDay(year, month, date)] for a month in 0..11. *)
Definition monthStart (leap : Z) (m : Z) : Z :=
  match m with
  | 0 => 0 | 1 => 31 | 2 => 59 + leap | 3 => 90 + leap | 4 => 120 + leap
  | 5 => 151 + leap | 6 => 181 + leap | 7 => 212 + leap | 8 => 243 + leap
  | 9 => 273 + leap | 10 => 304 + leap | _ => 334 + leap
  end.

Definition MakeDay (year month date : Z) : Z :=
  DayFromYear year
    + monthStart (if DaysInYear year =? 366 then 1 else 0) month + date - 1.

(** The time value of midnight UTC on a calendar day (month 1..12). *)
Definition utcMidnight (year month date : Z) : Z :=
  msPerDay * MakeDay year (month - 1) date.

Definition digitValue (c : ascii) : option Z :=
  if is_digit c then Some (Z.of_nat (nat_of_ascii c) - 48) else None.

Fixpoint numeral (s : string) (acc : Z) : option Z :=
  match s with
  | EmptyString => Some acc
  | String c s' => d ← digitValue c; numeral s' (10 * acc + d)
  end.

(** [Date.parse] on the date-only ISO form [YYYY-MM-DD], which is read as
    midnight UTC; [None] is NaN.  The other forms [Date.parse] accepts are
    not needed by the service and read as NaN here. *)
Definition parseDateOnly (s : string) : option Z :=
  match split "-" s with
  | [y; m; d] =>
      if ((String.length y =? 4) && (String.length m =? 2)
          && (String.length d =? 2))%nat
      then
        yy ← numeral y 0; mm ← numeral m 0; dd ← numeral d 0;
        let t := utcMidnight yy mm dd in
        if (1 <=? mm) && (mm <=? 12) && (MonthFromTime t =? mm - 1)
           && (DateFromTime t =? dd)
        then Some t else None
      else None
  | _ => None
  end.

(** [new Date(string)] on that form. *)
Definition newDateOfString (s : string) : Date := newDate (parseDateOnly s).

End JSDate.

(* ===================================================================== *)
(** ** JavaScript Numbers (IEEE 754 binary64) *)
(* ===================================================================== *)

Module JSNumber.
Import JSString.

Definition prec : Z := 53.
Definition emax : Z := 1024.

(** A Number is a binary64 value. *)
Definition number : Type := spec_float.

Definition sub (x y : number) : number := SFsub prec emax x y.
Definition ltb (x y : number) : bool := SFltb x y.
Definition leb (x y : number) : bool := SFleb x y.

(** The Number nearest to the integer [z]. *)
Definition ofZ (z : Z) : number := binary_normalize prec emax z 0 false.

(** The Number a decimal literal [s]e[p] denotes: the binary64 value
    nearest to [s * 10^p], ties to even ([0 <= s]). *)
Definition ofDecimal (s p : Z) : number :=
  let '(mz, ez, lz) :=
    SFdiv_core_binary prec emax (s * 10 ^ Z.max p 0) 0 (10 ^ Z.max (- p) 0) 0 in
  binary_round_aux prec emax false mz ez lz.

(** A Number in the form binary64 stores it: NaN, an infinity, a zero, or a
    mantissa and an exponent in canonical form. *)
Definition representable (x : number) : bool := valid_binary prec emax x.

(** The least exponent of a binary64 mantissa, -1074. *)
Definition least_exponent : Z := emin prec emax.

(** The value of a finite Number in units of [2^-1074], the least positive
    Number: every finite binary64 value is a whole number of them. *)
Definition exact (x : number) : Z :=
  match x with
  | S754_finite s m e => cond_Zopp s (Zpos m * 2 ^ (e - emin prec emax))
  | _ => 0
  end.

(** A Number other than NaN and the infinities. *)
Definition finite (x : number) : bool :=
  match x with
  | S754_zero _ | S754_finite _ _ _ => true
  | _ => false
  end.

(** [Math.ceil]. *)
Definition ceil (x : number) : number :=
  match x with
  | S754_finite s m e =>
      if 0 <=? e then x
      else
        let d := 2 ^ (- e) in
        let q := Zpos m / d in
        let r := Zpos m mod d in
        if s then binary_normalize prec emax (- q) 0 true
        else binary_normalize prec emax (if r =? 0 then q else q + 1) 0 false
  | _ => x
  end.

(** The sign of [a * 2^ea * 10^pa - b * 2^eb * 10^pb], exactly. *)
Definition cmp_scaled (a ea pa b eb pb : Z) : comparison :=
  let e := Z.min ea eb in
  let p := Z.min pa pb in
  (a * 2 ^ (ea - e) * 10 ^ (pa - p) ?= b * 2 ^ (eb - e) * 10 ^ (pb - p)).

(** The decimal exponent [n] of a positive [m * 2^e]:
    [10^(n-1) <= m * 2^e < 10^n], searched upwards from [n].  The search
    starts just below the estimate [log2 (m * 2^e) * log10 2]. *)
Fixpoint decimal_exponent (fuel : nat) (n : Z) (m e : Z) : Z :=
  match fuel with
  | O => n
  | S fuel' =>
      match cmp_scaled m e 0 1 0 n with
      | Lt => n
      | _ => decimal_exponent fuel' (n + 1) m e
      end
  end.

Definition decimal_exponent_start (m e : Z) : Z :=
  (Z.log2 m + e) * 30103 / 100000 - 1.

(** [floor (m * 2^e / 10^q)]. *)
Definition floor_scaled (m e q : Z) : Z :=
  (m * 2 ^ Z.max e 0 * 10 ^ Z.max (- q) 0) / (2 ^ Z.max (- e) 0 * 10 ^ Z.max q 0).

(** The digits [(n, s)] of length [k] for [x = m * 2^e], when a [k]-digit
    decimal [s * 10^(n-k)] reads back as [x]; of the two neighbours of [x]
    the closer one, the even one on a tie. *)
Definition digits_of_length (x : number) (m e n : Z) (k : Z) : option (Z * Z) :=
  let q := n - k in
  let lo := floor_scaled m e q in
  let hi := lo + 1 in
  let norm (s : Z) : Z * Z := if s =? 10 ^ k then (n + 1, 10 ^ (k - 1)) else (n, s) in
  let reads_back (s : Z) : bool :=
    (10 ^ (k - 1) <=? s) &&
    match SFcompare (ofDecimal s q) x with Some Eq => true | _ => false end in
  match reads_back lo, reads_back hi with
  | true, true =>
      match cmp_scaled (2 * m) e 0 (lo + hi) 0 q with
      | Lt => Some (norm lo)
      | Gt => Some (norm hi)
      | Eq => Some (norm (if Z.even lo then lo else hi))
      end
  | true, false => Some (norm lo)
  | false, true => Some (norm hi)
  | false, false => None
  end.

(** The shortest digits: the least [k] from [k] on, at most [fuel] tries. *)
Fixpoint shortest_digits (fuel : nat) (x : number) (m e n : Z) (k : Z)
  : Z * Z * Z :=
  match fuel with
  | O => (n, k, floor_scaled m e (n - k))
  | S fuel' =>
      match digits_of_length x m e n k with
      | Some (n', s) => (n', k, s)
      | None => shortest_digits fuel' x m e n (k + 1)
      end
  end.

Fixpoint zeros (k : nat) : string :=
  match k with O => EmptyString | S k' => String "0"%char (zeros k') end.

(** Number::toString of a positive finite value from its digits. *)
Definition format_digits (n k s : Z) : string :=
  let ds := pad (Z.to_nat k) s in
  if (-5 <=? n) && (n <=? 21) then
    if k <=? n then ds +:+ zeros (Z.to_nat (n - k))
    else if 0 <? n then
      String.substring 0 (Z.to_nat n) ds +:+ "." +:+
      String.substring (Z.to_nat n) (Z.to_nat (k - n)) ds
    else "0." +:+ zeros (Z.to_nat (- n)) +:+ ds
  else
    let ex := n - 1 in
    let sign := if ex <? 0 then "-" else "+" in
    let exs := decimal (Z.abs ex) in
    if k =? 1 then ds +:+ "e" +:+ sign +:+ exs
    else String.substring 0 1 ds +:+ "." +:+
         String.substring 1 (Z.to_nat (k - 1)) ds +:+ "e" +:+ sign +:+ exs.

(** Number::toString(x), radix 10: what a template literal [`${x}`]
    yields. *)
Definition toString (x : number) : string :=
  match x with
  | S754_nan => "NaN"
  | S754_zero _ => "0"
  | S754_infinity s => if s then "-Infinity" else "Infinity"
  | S754_finite sg m e =>
      let mz := Zpos m in
      let n := decimal_exponent 8 (decimal_exponent_start mz e) mz e in
      let '(n', k, s) := shortest_digits 17 (S754_finite false m e) mz e n 1 in
      (if sg then "-" else "") +:+ format_digits n' k s
  end.

(** [a + b] on integer-valued Numbers with [|a + b| < 2^54]: exact up to
    [2^53]; beyond, the sum is rounded to the nearest even integer, a tie
    going to the multiple of 4. *)
Definition addInt (a b : Z) : Z :=
  let s := a + b in
  if Z.abs s <=? 2 ^ 53 then s
  else if Z.even s then s
  else if (s + 1) mod 4 =? 0 then s + 1 else s - 1.

(** [Math.round(s / 2)] for an integer-valued Number [s]: halves round
    towards plus infinity. *)
Definition roundHalf (s : Z) : Z := (s + 1) / 2.

End JSNumber.

(* ===================================================================== *)
(** ** Results of fallible code *)
(* ===================================================================== *)

(** [QueryError] (query.error.ts): the three named conditions
    [createQuery] raises. *)
Inductive QueryError := NoDatesFound | NoLocationsFound | NoVariableFound.

(** What a call can throw: a [QueryError], a rejection by an injected
    collaborator, or one of the run-time's own errors. *)
Inductive Failure :=
| QueryFailure (e : QueryError)
| Rejected (reason : string)
| RangeError
| TypeError.

Inductive result (A : Type) : Type :=
| Ok (a : A)
| Throw (f : Failure).
Arguments Ok {A} a.
Arguments Throw {A} f.

#[global] Instance result_ret : MRet result := fun _ a => Ok a.
#[global] Instance result_bind : MBind result := fun _ _ k m =>
  match m with
  | Ok a => k a
  | Throw f => Throw f
  end.

(** Reading a possibly [undefined] value where an object is required. *)
Definition orThrow {A} (f : Failure) (o : option A) : result A :=
  match o with
  | Some a => Ok a
  | None => Throw f
  end.

(** A call that may fail and may change the world outside the service (a
    request sent over the network): the world is threaded through, and a
    failure ends the sequence with the world as it then is. *)
Definition io (W A : Type) : Type := W -> result A * W.

#[global] Instance io_ret {W} : MRet (io W) := fun _ a w => (Ok a, w).
#[global] Instance io_bind {W} : MBind (io W) := fun _ _ k m w =>
  match m w with
  | (Ok a, w') => k a w'
  | (Throw f, w') => (Throw f, w')
  end.

(** A computation of the service itself, which leaves the world alone. *)
Definition io_of {W A} (r : result A) : io W A := fun w => (r, w).

(* ===================================================================== *)
(** ** Data model *)
(* ===================================================================== *)

(** An [{min, max}] object. *)
Module Range.
Record t (A : Type) : Type := mk { min : A; max : A }.
Arguments mk {A} min max.
Arguments min {A} _.
Arguments max {A} _.
End Range.

(** A Comprehend [Entity], as [toAwsEntities] yields it; [Type_] is its
    [Type] property. *)
Record Entity := mkEntity {
  Type_ : string;
  Text : string;
  Score : JSNumber.number
}.

(** Modelled from the spec: the declaration of [ClimateVariable]
    (climate.variable.ts) is a closed enumeration of these four members, in
    this order. *)
Inductive ClimateVariable :=
| Temperature
| TotalCloudCover
| TotalPrecipitation
| WindSpeed.

#[global] Instance ClimateVariable_eq_dec : EqDecision ClimateVariable.
Proof. solve_decision. Defined.

(** [DataFormat] of the cdsapi package; the service only names [grib]. *)
Inductive DataFormat := grib.

Record GeoCoordinates := mkGeoCoordinates {
  latitude : Range.t JSNumber.number;
  longitude : Range.t JSNumber.number
}.

(** The values held by the properties of a request's [options] object. *)
Inductive Value :=
| Undefined
| Str (s : string)
| Arr (l : list string)
| Var (v : ClimateVariable)
| Format (f : DataFormat).

(** A [DataRequest]; [options] is a plain object, a finite map from property
    names to values. *)
Record DataRequest := mkDataRequest {
  name : string;
  options : gmap string Value
}.

(* ===================================================================== *)
(** ** QueryService *)
(* ===================================================================== *)

Module QueryService.
Import JSString JSDate.

(** Comparison of Numbers that may be NaN ([None]): false on NaN. *)
Definition num_ge (a b : option Z) : bool :=
  match a, b with
  | Some x, Some y => y <=? x
  | _, _ => false
  end.

Definition num_lt (a b : option Z) : bool :=
  match a, b with
  | Some x, Some y => x <? y
  | _, _ => false
  end.

Definition num_gt (a b : option Z) : bool := num_lt b a.

(** Truthiness: [!!x] for the result of [Array.prototype.find] over
    strings ([None] is [undefined]; the empty string is falsy) and over
    objects (always truthy when found). *)
Definition truthy_string (o : option string) : bool :=
  match o with
  | Some s => negb (String.eqb s "")
  | None => false
  end.

Definition truthy_object {A} (o : option A) : bool :=
  match o with
  | Some _ => true
  | None => false
  end.

(** [array.sort(compare)]: a stable sort; [x] stays before [y] unless
    [compare(x, y) > 0] (a NaN from [compare] counts as 0).  For a
    consistent comparator this is the order ECMA-262 prescribes.  When the
    comparator is not consistent (a NaN among the Scores), the standard
    leaves the order to the engine, and what is stated of the order of the
    result assumes [finite_scores]. *)
Section Sort.
Context {A : Type} (positive : A -> A -> bool).

Fixpoint sort_insert (x : A) (l : list A) : list A :=
  match l with
  | [] => [x]
  | y :: l' => if positive x y then y :: sort_insert x l' else x :: l
  end.

Fixpoint sort (l : list A) : list A :=
  match l with
  | [] => []
  | x :: l' => sort_insert x (sort l')
  end.
End Sort.

(** [(e1, e2) => e2.Score - e1.Score] is positive. *)
Definition byScore (e1 e2 : Entity) : bool :=
  JSNumber.ltb (S754_zero false) (JSNumber.sub (Score e2) (Score e1)).

(** [(d1, d2) => d1.getTime() - d2.getTime()] is positive. *)
Definition byTime (d1 d2 : Date) : bool := num_gt (getTime d1) (getTime d2).

(** [this.stems], in the order the constructor writes the keys. *)
Definition stems : list (ClimateVariable * list string) :=
  [ (Temperature, ["hot"; "cold"; "warm"; "freeze"]);
    (TotalCloudCover, ["sun"; "cloud"; "clear"; "overcast"]);
    (TotalPrecipitation, ["dry"; "wet"; "rain"; "moist"]);
    (WindSpeed, ["wind"; "storm"; "calm"]) ].

(** [Object.keys(this.stems)]: the keys in insertion order. *)
Definition Object_keys {K V} (o : list (K * V)) : list K := map fst o.

(** [this.stems[variable]]. *)
Definition stems_at (variable : ClimateVariable) : list string :=
  match List.find (fun kv => bool_decide (fst kv = variable)) stems with
  | Some kv => snd kv
  | None => []
  end.

(** [date.getUTCFullYear() < 2018 && date.getUTCFullYear() > 2007]. *)
Definition inWindow (date : Date) : bool :=
  num_lt (getUTCFullYear date) (Some 2018)
  && num_gt (getUTCFullYear date) (Some 2007).

Record Query (GoogleResult : Type) := mkQuery {
  dateRange : Range.t Date;
  googleResult : GoogleResult;
  geoCoordinates : GeoCoordinates;
  variable : ClimateVariable
}.
Arguments mkQuery {GoogleResult} _ _ _ _.
Arguments dateRange {GoogleResult} _.
Arguments googleResult {GoogleResult} _.
Arguments geoCoordinates {GoogleResult} _.
Arguments variable {GoogleResult} _.

Section Service.
(** The collaborators: Sugar's [Date.create], [KeywordExtractor.extract]
    with the options the service passes, en-stemmer's [stemmer], the
    entity extractor (with [toAwsEntities] applied) and the geocoder. *)
Variable SugarDate_create : string -> Date.
Variable KeywordExtractor_extract : string -> list string.
Variable stemmer : string -> string.
Variable extractEntities : string -> result (list Entity).
Variables GoogleResult Geometry : Type.
Variable getGoogleResult : string -> result GoogleResult.
Variable geometry : GoogleResult -> Geometry.
Variable toGeoCoordinates : Geometry -> result GeoCoordinates.

Definition minDate : Date := newDateOfString "2008-01-01".

Definition toDates (entites : list Entity) : list Date :=
  List.filter (fun date => num_ge (getTime date) (getTime minDate))
    (map (fun entity => SugarDate_create (Text entity))
       (List.filter (fun entity => String.eqb (Type_ entity) "DATE") entites)).

Definition toLocations (entities : list Entity) : list string :=
  map (fun entity => Text entity)
    (List.filter (fun entity => String.eqb (Type_ entity) "LOCATION") entities).

Definition toVariable (input : string) : option ClimateVariable :=
  let words := KeywordExtractor_extract input in
  let stems := map (fun word => stemmer word) words in
  List.find (fun variable =>
               let validStems := stems_at variable in
               truthy_string
                 (List.find (fun validStem =>
                               truthy_string
                                 (List.find (fun word => startsWith word validStem)
                                    words))
                    validStems))
    (Object_keys QueryService.stems).

(** The copy [createQuery] puts into ascending order, and drops. *)
Definition ascending (dates : list Date) : list Date :=
  sort byTime (List.filter inWindow dates).

(** [createQuery] from the sorting of the extracted entities on. *)
Definition createQuery_entities (input : string) (awsEntities : list Entity)
  : result (Query GoogleResult) :=
  let entities := sort byScore awsEntities in
  let dates := toDates entities in
  let locations := toLocations entities in
  match dates with
  | [] => Throw (QueryFailure NoDatesFound)
  | date0 :: _ =>
      if negb (truthy_object (List.find inWindow dates))
      then Throw (QueryFailure NoDatesFound)
      else
        match locations with
        | [] => Throw (QueryFailure NoLocationsFound)
        | location0 :: _ =>
            googleResult ← getGoogleResult location0;
            geoCoordinates ← toGeoCoordinates (geometry googleResult);
            let _ := ascending dates in
            let climateVariable := toVariable input in
            match climateVariable with
            | None => Throw (QueryFailure NoVariableFound)
            | Some climateVariable =>
                Ok (mkQuery (Range.mk date0 (List.last dates date0))
                      googleResult geoCoordinates climateVariable)
            end
        end
  end.

Definition createQuery (input : string) : result (Query GoogleResult) :=
  awsEntities ← extractEntities input;
  createQuery_entities input awsEntities.

End Service.

(** The values of the [const] locals of [toDataRequest]; a [None] is
    [undefined], the value of an array read past the end. *)
Record Locals := mkLocals {
  isoDate : string;
  datePart : option string;
  timePart : option string;
  hour : option string;
  year : option string;
  month : option string;
  day : option string;
  grid : list string;
  area : list string;
  time : string
}.

(** [`${x}`] for a string that may be [undefined]. *)
Definition template (o : option string) : string :=
  match o with
  | Some s => s
  | None => "undefined"
  end.

Definition ofOption (o : option string) : Value :=
  match o with
  | Some s => Str s
  | None => Undefined
  end.

(** [Math.round((a + b) / 2)] on two time values. *)
Definition midpoint (a b : option Z) : option Z :=
  x ← a; y ← b; Some (JSNumber.roundHalf (JSNumber.addInt x y)).

Section DataRequest.
Context {GoogleResult : Type}.

(** [toDataRequest] up to its [return]: the locals it computes. *)
Definition toDataRequest_locals (query : Query GoogleResult) : result Locals :=
  let date :=
    newDate (midpoint (getTime (Range.max (dateRange query)))
               (getTime (Range.min (dateRange query)))) in
  isoDate ← orThrow RangeError (toISOString date);
  let datePart := split "T" isoDate !! 0%nat in
  let timePart := split "T" isoDate !! 1%nat in
  timeParts ← orThrow TypeError (split ":" <$> timePart);
  let hour := timeParts !! 0%nat in
  dateParts ← orThrow TypeError (split "-" <$> datePart);
  let year := dateParts !! 0%nat in
  let month := dateParts !! 1%nat in
  let day := dateParts !! 2%nat in
  let latRange := latitude (geoCoordinates query) in
  let lonRange := longitude (geoCoordinates query) in
  let grid :=
    map (fun range =>
           JSNumber.toString
             (JSNumber.ceil (JSNumber.sub (Range.max range) (Range.min range))))
      [latRange; lonRange] in
  let area :=
    map (fun coord => JSNumber.toString coord)
      [Range.max latRange; Range.min lonRange;
       Range.min latRange; Range.max lonRange] in
  let time := template hour +:+ ":00" in
  Ok (mkLocals isoDate datePart timePart hour year month day grid area time).

(** [toDataRequest]: the object it returns; [time] is left out of the
    options, as in the source. *)
Definition toDataRequest (query : Query GoogleResult) : result DataRequest :=
  l ← toDataRequest_locals query;
  Ok {| name := "reanalysis-era5-single-levels";
        options :=
          <[ "variable" := Var (variable query) ]>
          (<[ "product_type" := Str "reanalysis" ]>
          (<[ "grid" := Arr (grid l) ]>
          (<[ "area" := Arr (area l) ]>
          (<[ "year" := ofOption (year l) ]>
          (<[ "month" := ofOption (month l) ]>
          (<[ "day" := ofOption (day l) ]>
          (<[ "format" := Format grib ]> ∅))))))) |}.

End DataRequest.

Section Run.
Context {GoogleResult : Type}.
(** The collaborators of [runQuery]: the two calls of the CDS client, the
    [link] property of what the second returns, and [httpUtils.get]. *)
Variables World GribLink DownloadLink ResultJson : Type.
Variable requestGrib : DataRequest -> io World GribLink.
Variable requestJsonLink : GribLink -> io World DownloadLink.
Variable link : DownloadLink -> string.
Variable get : string -> io World ResultJson.

Definition runQuery (query : Query GoogleResult) : io World ResultJson :=
  request ← io_of (toDataRequest query);
  gribLink ← requestGrib request;
  downloadLink ← requestJsonLink gribLink;
  get (link downloadLink).

End Run.

(** *** Notions the properties are stated with *)

(** The position of a variable in the enumeration. *)
Definition ordinal (v : ClimateVariable) : nat :=
  match v with
  | Temperature => 0
  | TotalCloudCover => 1
  | TotalPrecipitation => 2
  | WindSpeed => 3
  end.

(** Some stem of the vocabulary of [v] is a prefix of some keyword. *)
Definition matches (words : list string) (v : ClimateVariable) : Prop :=
  exists validStem word,
    In validStem (stems_at v) /\ In word words
    /\ startsWith word validStem = true.

(** The test [toVariable] applies to each variable in turn. *)
Definition variable_test (words : list string) (variable : ClimateVariable) : bool :=
  truthy_string
    (List.find (fun validStem =>
                  truthy_string
                    (List.find (fun word => startsWith word validStem) words))
       (stems_at variable)).

(** The year, month and day that [toDataRequest] reads off the pieces of
    the date part at time [t]. *)
Definition year_piece (t : Z) : string :=
  if YearFromTime t <? 0 then EmptyString else isoYear (YearFromTime t).
Definition month_piece (t : Z) : string :=
  if YearFromTime t <? 0 then pad 6 (Z.abs (YearFromTime t))
  else pad 2 (MonthFromTime t + 1).
Definition day_piece (t : Z) : string :=
  if YearFromTime t <? 0 then pad 2 (MonthFromTime t + 1)
  else pad 2 (DateFromTime t).

(** [d1] is not later than [d2], both being valid. *)
Definition not_later (d1 d2 : Date) : Prop :=
  num_ge (getTime d2) (getTime d1) = true.

(** Some DATE entity of the list parses to a date of the window. *)
Definition has_window_date (parse : string -> Date) (entities : list Entity) : Prop :=
  exists entity, In entity entities /\ Type_ entity = "DATE"
                 /\ (exists y, getUTCFullYear (parse (Text entity)) = Some y
                                /\ 2008 <= y <= 2017).

(** A collaborator that fails with errors of its own only, never with a
    [QueryError]. *)
Definition foreign {A B} (f : A -> result B) : Prop :=
  forall a e, f a <> Throw (QueryFailure e).

(** The Score of the entity is a finite binary64 number. *)
Definition well_scored (entity : Entity) : Prop :=
  JSNumber.finite (Score entity) = true
  /\ JSNumber.representable (Score entity) = true.

(** Every Score is a finite binary64 number: neither NaN nor an infinity.
    The differences that the comparator of [createQuery] takes are then
    numbers, and the comparator is consistent. *)
Definition finite_scores (entities : list Entity) : Prop :=
  Forall well_scored entities.

(** [sorted] is [given] in descending order of Score, entities of equal
    Score in the order given: what a stable sort by
    [(e1, e2) => e2.Score - e1.Score] returns. *)
Definition by_confidence (given sorted : list Entity) : Prop :=
  Permutation given sorted
  /\ StronglySorted
       (fun a b => JSNumber.exact (Score b) <= JSNumber.exact (Score a)) sorted
  /\ forall k,
       List.filter (fun e => JSNumber.exact (Score e) =? k) sorted
       = List.filter (fun e => JSNumber.exact (Score e) =? k) given.

(** Some entity of the list is a LOCATION. *)
Definition has_location (entities : list Entity) : Prop :=
  exists entity, In entity entities /\ Type_ entity = "LOCATION".

(** The UTC year of a date is one of 2008..2017. *)
Definition year_in_window (date : Date) : Prop :=
  exists y, getUTCFullYear date = Some y /\ 2008 <= y <= 2017.

(** A Date that is not an Invalid Date. *)
Definition valid_Date (date : Date) : Prop :=
  exists t, timeValue date = Some t /\ Z.abs t <= maxTime.

(** An instant of the UTC calendar day [y]-[m]-[d]. *)
Definition on_day (y m d : Z) (date : Date) : Prop :=
  exists t, timeValue date = Some t
            /\ utcMidnight y m d <= t < utcMidnight y m d + msPerDay.

(** The invariant of a [Query]: valid dates, [min <= max] for the dates
    and on both axes of the bounding box. *)
Definition Query_invariant {GoogleResult} (query : Query GoogleResult) : Prop :=
  valid_Date (Range.min (dateRange query))
  /\ valid_Date (Range.max (dateRange query))
  /\ num_ge (getTime (Range.max (dateRange query)))
             (getTime (Range.min (dateRange query))) = true
  /\ JSNumber.leb (Range.min (latitude (geoCoordinates query)))
                   (Range.max (latitude (geoCoordinates query))) = true
  /\ JSNumber.leb (Range.min (longitude (geoCoordinates query)))
                   (Range.max (longitude (geoCoordinates query))) = true.

End QueryService.

(* ===================================================================== *)
(** ** [toDataRequest] on objects in a store *)
(* ===================================================================== *)

(** A [Query] is a graph of mutable objects: the query itself, its
    [dateRange], the two [Date]s, its [geoCoordinates] and the two ranges of
    these.  Here they live in a store and are named by references, so that
    what a call reads, writes and creates is explicit; a call is a
    computation on the store.  The objects have the shapes the TypeScript
    declarations give them; reading a reference as another shape is a
    TypeError. *)
Module Store.
Import JSString JSDate QueryService.

Definition ref : Type := nat.

Inductive object :=
| DateObject (timeValue : option Z)
| DateRangeObject (min max : ref)
| NumberRangeObject (min max : JSNumber.number)
| CoordinatesObject (latitude longitude : ref)
| QueryObject (dateRange googleResult geoCoordinates : ref)
              (variable : ClimateVariable)
| OtherObject.

(** The store: the object of reference [r] is the [r]th one created. *)
Definition store : Type := list object.

Definition read (r : ref) : io store object := fun s =>
  (orThrow TypeError (s !! r), s).

(** A new object gets the next reference; nothing else changes. *)
Definition create (o : object) : io store ref := fun s =>
  (Ok (length s), s ++ [o]).

Definition readQuery (r : ref) : io store (ref * ref * ClimateVariable) :=
  o ← read r;
  match o with
  | QueryObject dateRange _ geoCoordinates variable =>
      mret (dateRange, geoCoordinates, variable)
  | _ => io_of (Throw TypeError)
  end.

Definition readDateRange (r : ref) : io store (Range.t ref) :=
  o ← read r;
  match o with
  | DateRangeObject min max => mret (Range.mk min max)
  | _ => io_of (Throw TypeError)
  end.

Definition readCoordinates (r : ref) : io store (ref * ref) :=
  o ← read r;
  match o with
  | CoordinatesObject latitude longitude => mret (latitude, longitude)
  | _ => io_of (Throw TypeError)
  end.

Definition readNumberRange (r : ref) : io store (Range.t JSNumber.number) :=
  o ← read r;
  match o with
  | NumberRangeObject min max => mret (Range.mk min max)
  | _ => io_of (Throw TypeError)
  end.

(** [range.max] and [range.min] of an object with two Numbers. *)
Definition getMax (r : ref) : io store JSNumber.number :=
  range ← readNumberRange r; mret (Range.max range).

Definition getMin (r : ref) : io store JSNumber.number :=
  range ← readNumberRange r; mret (Range.min range).

(** [array.map(callback)], the callback reading the store. *)
Fixpoint mapArray {A B} (callback : A -> io store B) (array : list A)
  : io store (list B) :=
  match array with
  | [] => mret []
  | x :: array' =>
      y ← callback x; ys ← mapArray callback array'; mret (y :: ys)
  end.

(** [date.getTime()]. *)
Definition getTime (r : ref) : io store (option Z) :=
  o ← read r;
  match o with
  | DateObject timeValue => mret timeValue
  | _ => io_of (Throw TypeError)
  end.

(** [new Date(value)]. *)
Definition newDate (v : option Z) : io store ref :=
  create (DateObject (v ≫= TimeClip)).

(** [date.toISOString()]. *)
Definition toISOString (r : ref) : io store string :=
  o ← read r;
  match o with
  | DateObject timeValue =>
      io_of (orThrow RangeError (JSDate.toISOString (mkDate timeValue)))
  | _ => io_of (Throw TypeError)
  end.

(** [toDataRequest(query)], line by line, for a query in the store. *)
Definition toDataRequest (query : ref) : io store DataRequest :=
  '(dateRange, _, _) ← readQuery query;
  range ← readDateRange dateRange;
  tmax ← getTime (Range.max range);
  '(dateRange, _, _) ← readQuery query;
  range ← readDateRange dateRange;
  tmin ← getTime (Range.min range);
  date ← newDate (midpoint tmax tmin);
  isoDate ← toISOString date;
  let datePart := split "T" isoDate !! 0%nat in
  let timePart := split "T" isoDate !! 1%nat in
  timeParts ← io_of (orThrow TypeError (split ":" <$> timePart));
  let hour := timeParts !! 0%nat in
  dateParts ← io_of (orThrow TypeError (split "-" <$> datePart));
  let year := dateParts !! 0%nat in
  let month := dateParts !! 1%nat in
  let day := dateParts !! 2%nat in
  '(_, geoCoordinates, _) ← readQuery query;
  '(latRange, _) ← readCoordinates geoCoordinates;
  '(_, geoCoordinates, _) ← readQuery query;
  '(_, lonRange) ← readCoordinates geoCoordinates;
  grid ← mapArray (fun range =>
                     max ← getMax range;
                     min ← getMin range;
                     mret (JSNumber.toString
                             (JSNumber.ceil (JSNumber.sub max min))))
            [latRange; lonRange];
  north ← getMax latRange;
  west ← getMin lonRange;
  south ← getMin latRange;
  east ← getMax lonRange;
  let area :=
    map (fun coord => JSNumber.toString coord) [north; west; south; east] in
  let time := template hour +:+ ":00" in
  '(_, _, variable) ← readQuery query;
  mret {| name := "reanalysis-era5-single-levels";
          options :=
            <[ "variable" := Var variable ]>
            (<[ "product_type" := Str "reanalysis" ]>
            (<[ "grid" := Arr grid ]>
            (<[ "area" := Arr area ]>
            (<[ "year" := ofOption year ]>
            (<[ "month" := ofOption month ]>
            (<[ "day" := ofOption day ]>
            (<[ "format" := Format grib ]> ∅))))))) |}.

(** The store holds, at [r], a query with the dates, the bounding box and
    the variable of [q]. *)
Definition holds {GoogleResult} (s : store) (r : ref)
    (q : Query GoogleResult) : Prop :=
  exists dateRange_ googleResult_ geoCoordinates_ min_ max_ latitude_ longitude_,
    s !! r = Some (QueryObject dateRange_ googleResult_ geoCoordinates_
                     (QueryService.variable q))
    /\ s !! dateRange_ = Some (DateRangeObject min_ max_)
    /\ s !! min_
       = Some (DateObject (timeValue (Range.min (QueryService.dateRange q))))
    /\ s !! max_
       = Some (DateObject (timeValue (Range.max (QueryService.dateRange q))))
    /\ s !! geoCoordinates_ = Some (CoordinatesObject latitude_ longitude_)
    /\ s !! latitude_
       = Some (NumberRangeObject
                 (Range.min (latitude (QueryService.geoCoordinates q)))
                 (Range.max (latitude (QueryService.geoCoordinates q))))
    /\ s !! longitude_
       = Some (NumberRangeObject
                 (Range.min (longitude (QueryService.geoCoordinates q)))
                 (Range.max (longitude (QueryService.geoCoordinates q)))).

End Store.

(* ===================================================================== *)
(** ** Sample collaborators and inputs *)
(* ===================================================================== *)

(** Concrete stand-ins for the injected collaborators, and a few inputs, on
    which the service can be run: a parser for date-only ISO texts, a
    tokenizer on spaces, the identity stemmer and a geocoder that knows one
    bounding box. *)
Module Samples.
Import JSString JSDate QueryService.

Definition parse (text : string) : Date := newDateOfString text.
Definition keywords (input : string) : list string := split " " input.
Definition stem (word : string) : string := word.

(** lat [48.8, 48.9], lon [2.3, 2.4]. *)
Definition paris : GeoCoordinates :=
  mkGeoCoordinates
    (Range.mk (JSNumber.ofDecimal 488 (-1)) (JSNumber.ofDecimal 489 (-1)))
    (Range.mk (JSNumber.ofDecimal 23 (-1)) (JSNumber.ofDecimal 24 (-1))).

Definition geocode (location : string) : result GeoCoordinates := Ok paris.
Definition extract (entities : list Entity) (input : string)
  : result (list Entity) := Ok entities.

(** The service wired to the stand-ins. *)
Definition run (entities : list Entity) (input : string)
  : result (Query GeoCoordinates) :=
  createQuery parse keywords stem (extract entities) GeoCoordinates
    GeoCoordinates geocode (fun g => g) (fun g => Ok g) input.

Definition score (percent : Z) : JSNumber.number := JSNumber.ofDecimal percent (-2).

(** Three entities in the order of their confidence: the more confident
    date is the later one, and lies beyond 2017. *)
Definition late_first : list Entity :=
  [ mkEntity "DATE" "2020-01-01" (score 90);
    mkEntity "DATE" "2015-03-01" (score 80);
    mkEntity "LOCATION" "Paris" (score 70) ].

(** One date in the window and no location. *)
Definition date_only : list Entity :=
  [ mkEntity "DATE" "2015-03-01" (score 90) ].

(** No location, and a date before the window. *)
Definition early_date : list Entity :=
  [ mkEntity "DATE" "2005-07-04" (score 90) ].

(** Three dates of the window, neither ascending nor descending in the
    order of their confidence, and a location. *)
Definition unordered : list Entity :=
  [ mkEntity "DATE" "2016-06-01" (score 90);
    mkEntity "DATE" "2010-01-01" (score 80);
    mkEntity "DATE" "2012-05-05" (score 70);
    mkEntity "LOCATION" "Paris" (score 60) ].

Definition question : string := "was it cold in Paris".

(** Entities in the order of their extraction, which is not the order of
    their confidence. *)
Definition shuffled : list Entity :=
  [ mkEntity "LOCATION" "Lyon" (score 40);
    mkEntity "DATE" "2010-01-01" (score 80);
    mkEntity "LOCATION" "Paris" (score 60);
    mkEntity "DATE" "2012-05-05" (score 70);
    mkEntity "DATE" "2016-06-01" (score 90) ].

(** The same entities in the order of their confidence. *)
Definition shuffled_by_confidence : list Entity :=
  [ mkEntity "DATE" "2016-06-01" (score 90);
    mkEntity "DATE" "2010-01-01" (score 80);
    mkEntity "DATE" "2012-05-05" (score 70);
    mkEntity "LOCATION" "Paris" (score 60);
    mkEntity "LOCATION" "Lyon" (score 40) ].

(** A question without any word of the vocabularies. *)
Definition dull_question : string := "what about Paris".

(** A query with an Invalid Date as its later end. *)
Definition query_invalid : Query unit :=
  mkQuery (Range.mk (newDateOfString "2015-03-01") (mkDate None)) tt paris Temperature.

(** A query on a single point. *)
Definition point : GeoCoordinates :=
  mkGeoCoordinates
    (Range.mk (JSNumber.ofDecimal 4885 (-2)) (JSNumber.ofDecimal 4885 (-2)))
    (Range.mk (JSNumber.ofDecimal 235 (-2)) (JSNumber.ofDecimal 235 (-2))).

(** A query in the year before the year 0. *)
Definition query_before_0 : Query unit :=
  mkQuery (Range.mk (mkDate (Some (-62198755200000)))
             (mkDate (Some (-62198755200000)))) tt point Temperature.

(** A geocoder that rejects every location. *)
Definition geocode_down (location : string) : result GeoCoordinates :=
  Throw (Rejected "ZERO_RESULTS").

(** A world that is the log of the requests sent, and collaborators of
    [runQuery] that log what they are asked. *)
Definition requestGrib_log (request : DataRequest) : io (list string) string :=
  fun w => (Ok "grib", w ++ ["requestGrib " +:+ name request]).
Definition requestJsonLink_log (gribLink : string) : io (list string) string :=
  fun w => (Ok "json", w ++ ["requestJsonLink " +:+ gribLink]).
Definition get_log (url : string) : io (list string) string :=
  fun w => (Ok "{}", w ++ ["get " +:+ url]).
Definition requestGrib_down (request : DataRequest) : io (list string) string :=
  fun w => (Throw (Rejected "503"), w ++ ["requestGrib " +:+ name request]).

Definition run_log (query : Query unit) : io (list string) string :=
  runQuery (list string) string string string
    requestGrib_log requestJsonLink_log (fun l => l) get_log query.

Definition day_2015_03_01 : Date := newDateOfString "2015-03-01".

Definition query_2015_03_01 : Query unit :=
  mkQuery (Range.mk day_2015_03_01 day_2015_03_01) tt paris Temperature.

(** A store that holds the sample query at reference 0: its only date is
    both ends of the range. *)
Definition store_2015_03_01 : Store.store :=
  [ Store.QueryObject 1%nat 6%nat 3%nat Temperature;
    Store.DateRangeObject 2%nat 2%nat;
    Store.DateObject (timeValue day_2015_03_01);
    Store.CoordinatesObject 4%nat 5%nat;
    Store.NumberRangeObject (Range.min (latitude paris))
      (Range.max (latitude paris));
    Store.NumberRangeObject (Range.min (longitude paris))
      (Range.max (longitude paris));
    Store.OtherObject ].

End Samples.

(* ===================================================================== *)
(** ** Facts about the run-time model *)
(* ===================================================================== *)

Module StringFacts.
Import JSString.

Lemma append_String c s x : String c s +:+ x = String c (s +:+ x).
Proof. reflexivity. Qed.

Lemma append_Empty x : EmptyString +:+ x = x.
Proof. reflexivity. Qed.

Lemma all_chars_String p c s :
  all_chars p (String c s) = p c && all_chars p s.
Proof. reflexivity. Qed.

Lemma all_chars_app p a b :
  all_chars p (a +:+ b) = all_chars p a && all_chars p b.
Proof.
  induction a as [|c a IH]; simpl; [reflexivity|].
  rewrite IH. now rewrite andb_assoc.
Qed.

Lemma all_chars_weaken (p q : ascii -> bool) s :
  (forall c, p c = true -> q c = true) ->
  all_chars p s = true -> all_chars q s = true.
Proof.
  intros Hpq. induction s as [|c s IH]; simpl; [reflexivity|].
  intros [Hc Hs]%andb_true_iff. rewrite (Hpq c Hc). simpl. auto.
Qed.

Lemma split_not_nil sep s : split sep s <> [].
Proof.
  destruct s as [|c s]; simpl; [discriminate|].
  destruct (Ascii.eqb c sep); [discriminate|].
  destruct (split sep s); discriminate.
Qed.

(** A string without the separator is one piece. *)
Lemma split_whole sep s :
  all_chars (is_not sep) s = true -> split sep s = [s].
Proof.
  induction s as [|c s IH]; simpl; [reflexivity|].
  intros [Hc Hs]%andb_true_iff. unfold is_not in Hc.
  destruct (Ascii.eqb c sep); [discriminate|].
  now rewrite (IH Hs).
Qed.

(** The first piece ends at the first separator. *)
Lemma split_first sep a b :
  all_chars (is_not sep) a = true ->
  split sep (a +:+ String sep b) = a :: split sep b.
Proof.
  induction a as [|c a IH]; simpl.
  - intros _. now rewrite Ascii.eqb_refl.
  - intros [Hc Ha]%andb_true_iff. unfold is_not in Hc.
    destruct (Ascii.eqb c sep); [discriminate|].
    now rewrite (IH Ha).
Qed.

Lemma digit_is_digit n : is_digit (digit n) = true.
Proof.
  unfold digit.
  assert (H : 0 <= n mod 10 < 10) by (apply Z.mod_pos_bound; lia).
  assert (E : n mod 10 = 0 \/ n mod 10 = 1 \/ n mod 10 = 2 \/ n mod 10 = 3
              \/ n mod 10 = 4 \/ n mod 10 = 5 \/ n mod 10 = 6
              \/ n mod 10 = 7 \/ n mod 10 = 8 \/ n mod 10 = 9) by lia.
  destruct E as [E|[E|[E|[E|[E|[E|[E|[E|[E|E]]]]]]]]]; rewrite E; vm_compute; reflexivity.
Qed.

Lemma pad_go_digits k : forall n acc,
  all_chars is_digit acc = true -> all_chars is_digit (pad_go k n acc) = true.
Proof.
  induction k as [|k IH]; intros n acc Hacc; simpl; [exact Hacc|].
  apply IH. cbn [all_chars]. rewrite digit_is_digit. exact Hacc.
Qed.

Lemma pad_digits k n : all_chars is_digit (pad k n) = true.
Proof. now apply pad_go_digits. Qed.

(** No digit is one of the separators that [toDataRequest] splits at. *)
Lemma digit_is_not sep c :
  is_digit sep = false -> is_digit c = true -> is_not sep c = true.
Proof.
  intros Hsep Hc. unfold is_not.
  destruct (Ascii.eqb_spec c sep) as [->|]; [congruence|reflexivity].
Qed.

Lemma pad_without sep k n :
  is_digit sep = false -> all_chars (is_not sep) (pad k n) = true.
Proof.
  intros Hsep. apply all_chars_weaken with (p := is_digit).
  - intros c. now apply digit_is_not.
  - apply pad_digits.
Qed.

End StringFacts.

Module DateFacts.
Import JSString JSDate StringFacts.

Lemma DayFromYear_mono y1 y2 : y1 <= y2 -> DayFromYear y1 <= DayFromYear y2.
Proof. unfold DayFromYear. intros H. Z.div_mod_to_equations. lia. Qed.

(** [YearFromDay] meets the definition of YearFromTime in ECMA-262: the
    day lies in the year returned. *)
Lemma YearFromDay_spec d :
  DayFromYear (YearFromDay d) <= d < DayFromYear (YearFromDay d + 1).
Proof.
  unfold YearFromDay, DayFromYear. cbv zeta. Z.div_mod_to_equations. lia.
Qed.

Lemma YearFromDay_unique d y :
  DayFromYear y <= d < DayFromYear (y + 1) -> YearFromDay d = y.
Proof.
  intros [Hlo Hhi]. pose proof (YearFromDay_spec d) as [Hlo' Hhi'].
  destruct (Z.lt_trichotomy (YearFromDay d) y) as [Hlt|[Heq|Hgt]]; [|exact Heq|].
  - pose proof (DayFromYear_mono (YearFromDay d + 1) y). lia.
  - pose proof (DayFromYear_mono (y + 1) (YearFromDay d)). lia.
Qed.

Lemma YearFromDay_mono d1 d2 : d1 <= d2 -> YearFromDay d1 <= YearFromDay d2.
Proof.
  intros H. pose proof (YearFromDay_spec d1) as [Hlo1 _].
  pose proof (YearFromDay_spec d2) as [_ Hhi2].
  destruct (Z_le_gt_dec (YearFromDay d1) (YearFromDay d2)) as [|Hgt]; [assumption|].
  pose proof (DayFromYear_mono (YearFromDay d2 + 1) (YearFromDay d1)). lia.
Qed.

Lemma Day_mono t1 t2 : t1 <= t2 -> Day t1 <= Day t2.
Proof. unfold Day, msPerDay. intros H. Z.div_mod_to_equations. lia. Qed.

Lemma YearFromTime_mono t1 t2 : t1 <= t2 -> YearFromTime t1 <= YearFromTime t2.
Proof. intros H. apply YearFromDay_mono, Day_mono, H. Qed.

(** The year is 2008 or later exactly from 2008-01-01T00:00:00Z on. *)
Lemma YearFromTime_2008 t : 2008 <= YearFromTime t <-> 1199145600000 <= t.
Proof.
  split; intros H.
  - destruct (Z_le_gt_dec 1199145600000 t) as [|Hlt]; [assumption|].
    pose proof (YearFromTime_mono t 1199145599999 ltac:(lia)) as Hm.
    change (YearFromTime 1199145599999) with 2007 in Hm. lia.
  - pose proof (YearFromTime_mono 1199145600000 t H) as Hm.
    change (YearFromTime 1199145600000) with 2008 in Hm. exact Hm.
Qed.

(** The year is 2017 or earlier exactly before 2018-01-01T00:00:00Z. *)
Lemma YearFromTime_2017 t : YearFromTime t <= 2017 <-> t < 1514764800000.
Proof.
  split; intros H.
  - destruct (Z_lt_ge_dec t 1514764800000) as [|Hge]; [assumption|].
    pose proof (YearFromTime_mono 1514764800000 t ltac:(lia)) as Hm.
    change (YearFromTime 1514764800000) with 2018 in Hm. lia.
  - pose proof (YearFromTime_mono t 1514764799999 ltac:(lia)) as Hm.
    change (YearFromTime 1514764799999) with 2017 in Hm. exact Hm.
Qed.

Ltac without_sep :=
  repeat first
    [ apply pad_without; reflexivity
    | rewrite all_chars_app; apply andb_true_intro; split
    | rewrite append_String
    | rewrite append_Empty
    | rewrite all_chars_String; apply andb_true_intro; split; [reflexivity|]
    | reflexivity ].

Lemma isoYear_without sep y :
  is_digit sep = false -> is_not sep "-" = true -> is_not sep "+" = true ->
  all_chars (is_not sep) (isoYear y) = true.
Proof.
  intros Hd Hm Hp. unfold isoYear.
  destruct ((0 <=? y) && (y <=? 9999)); [now apply pad_without|].
  cbn [all_chars]. rewrite pad_without by assumption.
  destruct (y <? 0); now rewrite ?Hm, ?Hp.
Qed.

Lemma isoDatePart_without_T t : all_chars (is_not "T") (isoDatePart t) = true.
Proof.
  unfold isoDatePart. rewrite all_chars_app, isoYear_without by reflexivity.
  without_sep.
Qed.

Lemma isoTimePart_without_T t : all_chars (is_not "T") (isoTimePart t) = true.
Proof. unfold isoTimePart. without_sep. Qed.

(** [isoDate.split("T")] has exactly the date part and the time part. *)
Lemma split_isoDate t :
  split "T" (isoDatePart t +:+ "T" +:+ isoTimePart t)
  = [isoDatePart t; isoTimePart t].
Proof.
  rewrite append_String, append_Empty.
  rewrite split_first by apply isoDatePart_without_T.
  now rewrite split_whole by apply isoTimePart_without_T.
Qed.

(** [timePart.split(":")] has three pieces, the hour first. *)
Lemma split_timePart t :
  split ":" (isoTimePart t)
  = [ pad 2 (HourFromTime t); pad 2 (MinFromTime t);
      pad 2 (SecFromTime t) +:+ "." +:+ pad 3 (msFromTime t) +:+ "Z" ].
Proof.
  unfold isoTimePart.
  rewrite !append_String, !append_Empty.
  rewrite split_first by (apply pad_without; reflexivity).
  rewrite split_first by (apply pad_without; reflexivity).
  rewrite split_whole by without_sep. reflexivity.
Qed.

(** [datePart.split("-")]: year, month and day for a year from 0 on; for a
    year before 0 the sign of the expanded year is itself a separator, and
    an empty piece comes first. *)
Lemma split_datePart t :
  split "-" (isoDatePart t)
  = (if YearFromTime t <? 0 then [EmptyString; pad 6 (Z.abs (YearFromTime t))]
     else [isoYear (YearFromTime t)])
    ++ [pad 2 (MonthFromTime t + 1); pad 2 (DateFromTime t)].
Proof.
  unfold isoDatePart.
  rewrite !append_String, !append_Empty.
  assert (Htail : forall a,
    all_chars (is_not "-") a = true ->
    split "-" (a +:+ String "-" (pad 2 (MonthFromTime t + 1)
                                  +:+ String "-" (pad 2 (DateFromTime t))))
    = [a; pad 2 (MonthFromTime t + 1); pad 2 (DateFromTime t)]).
  { intros a Ha. rewrite split_first by exact Ha.
    rewrite split_first by (apply pad_without; reflexivity).
    now rewrite split_whole by (apply pad_without; reflexivity). }
  unfold isoYear.
  destruct (Z.ltb_spec (YearFromTime t) 0) as [Hneg|Hpos].
  - replace ((0 <=? YearFromTime t) && (YearFromTime t <=? 9999)) with false
      by (symmetry; apply andb_false_intro1, Z.leb_gt, Hneg).
    rewrite append_String. cbn [split]. rewrite Ascii.eqb_refl.
    rewrite Htail by (apply pad_without; reflexivity). reflexivity.
  - destruct ((0 <=? YearFromTime t) && (YearFromTime t <=? 9999)).
    + now rewrite Htail by (apply pad_without; reflexivity).
    + rewrite Htail; [reflexivity|].
      cbn [all_chars]. rewrite pad_without by reflexivity. reflexivity.
Qed.

End DateFacts.

Module NumberFacts.
Import JSNumber JSDate.

(** The rounded midpoint of two time values in range is in range. *)
Lemma midpoint_in_range a b :
  Z.abs a <= maxTime -> Z.abs b <= maxTime ->
  Z.abs (roundHalf (addInt a b)) <= maxTime.
Proof.
  unfold maxTime, roundHalf, addInt. intros Ha Hb. cbv zeta.
  change (2 ^ 53) with 9007199254740992.
  destruct (Z.abs (a + b) <=? 9007199254740992);
    [Z.div_mod_to_equations; lia|].
  rewrite Zeven_mod.
  destruct (Z.eqb_spec ((a + b) mod 2) 0);
    [Z.div_mod_to_equations; lia|].
  destruct ((a + b + 1) mod 4 =? 0); Z.div_mod_to_equations; lia.
Qed.

(** Below [2^52] the sum is exact, and the midpoint lies between its
    arguments. *)
Lemma midpoint_between lo hi a b :
  - 2 ^ 52 <= lo -> hi <= 2 ^ 52 ->
  lo <= a <= hi -> lo <= b <= hi ->
  lo <= roundHalf (addInt a b) <= hi.
Proof.
  unfold roundHalf, addInt. intros Hlo Hhi Ha Hb. cbv zeta.
  change (2 ^ 53) with 9007199254740992.
  change (2 ^ 52) with 4503599627370496 in *.
  destruct (Z.leb_spec (Z.abs (a + b)) 9007199254740992);
    [Z.div_mod_to_equations; lia|lia].
Qed.

End NumberFacts.

Module ServiceFacts.
Import JSString JSDate QueryService StringFacts DateFacts NumberFacts.

(** *** Sorting keeps the elements *)

Lemma sort_insert_In {A} (pos : A -> A -> bool) x y l :
  In y (sort_insert pos x l) <-> y = x \/ In y l.
Proof.
  induction l as [|z l IH]; simpl; [intuition auto|].
  destruct (pos x z); simpl; rewrite ?IH; intuition auto.
Qed.

Lemma sort_In {A} (pos : A -> A -> bool) y l : In y (sort pos l) <-> In y l.
Proof.
  induction l as [|x l IH]; simpl; [reflexivity|].
  rewrite sort_insert_In, IH. intuition auto.
Qed.

(** *** Array reads *)

Lemma first_lookup {A} (x : A) l : (x :: l) !! 0%nat = Some x.
Proof. reflexivity. Qed.

Lemma last_lookup_default {A} (d : A) l :
  l <> [] -> l !! (length l - 1)%nat = Some (List.last l d).
Proof.
  induction l as [|x l IH]; [congruence|]. intros _.
  destruct l as [|y l]; [reflexivity|].
  change (List.last (x :: y :: l) d) with (List.last (y :: l) d).
  rewrite <- IH by discriminate. simpl. now rewrite Nat.sub_0_r.
Qed.

(** *** Years and the window *)

Lemma minDate_time : getTime minDate = Some 1199145600000.
Proof. vm_compute. reflexivity. Qed.

Lemma inWindow_iff date : inWindow date = true <-> year_in_window date.
Proof.
  unfold inWindow, year_in_window, num_gt, num_lt.
  destruct (getUTCFullYear date) as [y|].
  - rewrite andb_true_iff, !Z.ltb_lt. split.
    + intros [H1 H2]. exists y. split; [reflexivity|lia].
    + intros (y' & [= <-] & H). lia.
  - split; [discriminate|]. intros (y' & [=] & _).
Qed.

(** A date passes the filter of [toDates] exactly when its time value is
    a number from 2008-01-01T00:00:00Z on, that is when its UTC year is a
    number from 2008 on. *)
Lemma after_minDate_iff date :
  num_ge (getTime date) (getTime minDate) = true
  <-> exists t, getTime date = Some t /\ 1199145600000 <= t.
Proof.
  rewrite minDate_time. unfold num_ge.
  destruct (getTime date) as [t|].
  - rewrite Z.leb_le. split; [eauto|]. now intros (t' & [= <-] & H).
  - split; [discriminate|]. intros (t' & [=] & _).
Qed.

Lemma year_in_window_after_minDate date :
  year_in_window date -> num_ge (getTime date) (getTime minDate) = true.
Proof.
  intros (y & Hy & Hwin). apply after_minDate_iff.
  unfold getUTCFullYear in Hy. unfold getTime.
  destruct (timeValue date) as [t|]; [|discriminate].
  injection Hy as <-. exists t. split; [reflexivity|].
  apply YearFromTime_2008. lia.
Qed.

(** *** [toDataRequest] on valid dates *)

Lemma newDate_midpoint a b :
  Z.abs a <= maxTime -> Z.abs b <= maxTime ->
  newDate (midpoint (Some a) (Some b))
  = mkDate (Some (JSNumber.roundHalf (JSNumber.addInt a b))).
Proof.
  intros Ha Hb. unfold newDate, midpoint, TimeClip. cbn [mbind option_bind].
  pose proof (midpoint_in_range a b Ha Hb) as H.
  destruct (Z.leb_spec (Z.abs (JSNumber.roundHalf (JSNumber.addInt a b))) maxTime);
    [reflexivity|lia].
Qed.

Lemma toDataRequest_locals_valid {G} (query : Query G) a b :
  timeValue (Range.min (dateRange query)) = Some a ->
  timeValue (Range.max (dateRange query)) = Some b ->
  Z.abs a <= maxTime -> Z.abs b <= maxTime ->
  exists l,
    toDataRequest_locals query = Ok l
    /\ (let t := JSNumber.roundHalf (JSNumber.addInt b a) in
        datePart l = Some (isoDatePart t)
        /\ timePart l = Some (isoTimePart t)
        /\ hour l = Some (pad 2 (HourFromTime t))
        /\ year l = Some (year_piece t)
        /\ month l = Some (month_piece t)
        /\ day l = Some (day_piece t)).
Proof.
  intros Hmin Hmax Ha Hb.
  unfold toDataRequest_locals, getTime. rewrite Hmin, Hmax.
  rewrite (newDate_midpoint b a Hb Ha).
  set (t := JSNumber.roundHalf (JSNumber.addInt b a)).
  unfold toISOString. cbn [timeValue mbind option_bind orThrow result_bind].
  rewrite split_isoDate.
  cbn [lookup list_lookup fmap option_fmap option_map orThrow mbind result_bind].
  rewrite split_timePart, split_datePart.
  eexists. split; [reflexivity|].
  cbn [datePart timePart hour year month day].
  unfold year_piece, month_piece, day_piece.
  destruct (YearFromTime t <? 0); repeat split; reflexivity.
Qed.

(** *** [toDates], [toLocations] *)

Lemma toDates_In parse entities date :
  In date (toDates parse entities)
  <-> exists entity,
        In entity entities /\ Type_ entity = "DATE"
        /\ date = parse (Text entity)
        /\ num_ge (getTime date) (getTime minDate) = true.
Proof.
  unfold toDates. rewrite filter_In, in_map_iff. split.
  - intros [(entity & <- & [Hin Hty]%filter_In) Hge].
    exists entity. apply String.eqb_eq in Hty. auto.
  - intros (entity & Hin & Hty & -> & Hge). split; [|exact Hge].
    exists entity. split; [reflexivity|].
    apply filter_In. split; [exact Hin|]. now apply String.eqb_eq.
Qed.

Lemma toLocations_nil entities :
  (forall entity, In entity entities -> Type_ entity <> "LOCATION") ->
  toLocations entities = [].
Proof.
  intros H. unfold toLocations.
  induction entities as [|e entities IH]; [reflexivity|]. simpl.
  destruct (String.eqb_spec (Type_ e) "LOCATION") as [Heq|_].
  - exfalso. apply (H e); [now left|exact Heq].
  - apply IH. intros e' He'. apply H. now right.
Qed.

(** *** [toVariable] *)

Lemma toVariable_unfold extract stemmer input :
  toVariable extract stemmer input
  = List.find (variable_test (extract input))
      [Temperature; TotalCloudCover; TotalPrecipitation; WindSpeed].
Proof. reflexivity. Qed.

Lemma stems_not_empty variable validStem :
  In validStem (stems_at variable) -> validStem <> EmptyString.
Proof.
  destruct variable; cbv [stems_at stems List.find bool_decide fst snd decide_rel
                           ClimateVariable_eq_dec ClimateVariable_rec
                           ClimateVariable_rect decide];
    simpl; intros H; intuition (subst; discriminate).
Qed.

Lemma startsWith_not_empty word validStem :
  validStem <> EmptyString -> startsWith word validStem = true ->
  word <> EmptyString.
Proof.
  intros Hs Hp ->. unfold startsWith in Hp.
  destruct validStem; [congruence|discriminate].
Qed.

Lemma truthy_string_find (p : string -> bool) l :
  (forall s, In s l -> p s = true -> s <> EmptyString) ->
  truthy_string (List.find p l) = true <-> exists s, In s l /\ p s = true.
Proof.
  intros Hne. unfold truthy_string. destruct (List.find p l) as [s|] eqn:E.
  - apply find_some in E as [Hin Hp]. split.
    + intros _. eauto.
    + intros _. apply negb_true_iff. apply String.eqb_neq. now apply Hne.
  - split; [discriminate|]. intros (s & Hin & Hp).
    pose proof (find_none _ _ E s Hin). congruence.
Qed.

Lemma variable_test_iff words variable :
  variable_test words variable = true <-> matches words variable.
Proof.
  unfold variable_test, matches.
  rewrite truthy_string_find.
  - split.
    + intros (validStem & Hin & Ht).
      apply truthy_string_find in Ht as (word & Hw & Hp).
      * exists validStem, word. auto.
      * intros word _ Hp. eapply startsWith_not_empty; [|exact Hp].
        now apply (stems_not_empty variable).
    + intros (validStem & word & Hin & Hw & Hp).
      exists validStem. split; [exact Hin|].
      apply truthy_string_find; [|eauto].
      intros word' _ Hp'. eapply startsWith_not_empty; [|exact Hp'].
      now apply (stems_not_empty variable).
  - intros validStem Hin _. now apply (stems_not_empty variable).
Qed.

End ServiceFacts.

(** *** The run-time model on known values *)

Module RuntimeExamples.
Import JSString JSDate JSNumber.

Example toISOString_epoch :
  toISOString (newDate (Some 0)) = Some "1970-01-01T00:00:00.000Z".
Proof. vm_compute. reflexivity. Qed.

Example toISOString_before_epoch :
  toISOString (newDate (Some (-1))) = Some "1969-12-31T23:59:59.999Z".
Proof. vm_compute. reflexivity. Qed.

Example toISOString_leap_day :
  toISOString (newDate (Some 951827696789)) = Some "2000-02-29T12:34:56.789Z".
Proof. vm_compute. reflexivity. Qed.

Example toISOString_latest :
  toISOString (newDate (Some maxTime)) = Some "+275760-09-13T00:00:00.000Z".
Proof. vm_compute. reflexivity. Qed.

Example toISOString_earliest :
  toISOString (newDate (Some (- maxTime))) = Some "-271821-04-20T00:00:00.000Z".
Proof. vm_compute. reflexivity. Qed.

Example toISOString_out_of_range :
  toISOString (newDate (Some (maxTime + 1))) = None.
Proof. vm_compute. reflexivity. Qed.

Example parseDateOnly_2008 : parseDateOnly "2008-01-01" = Some 1199145600000.
Proof. vm_compute. reflexivity. Qed.

Example parseDateOnly_no_such_day : parseDateOnly "2015-02-30" = None.
Proof. vm_compute. reflexivity. Qed.

Example split_examples :
  split "-" "2015-03-01" = ["2015"; "03"; "01"]
  /\ split "-" "" = [""]
  /\ split "-" "-000001-01-01" = [""; "000001"; "01"; "01"].
Proof. vm_compute. auto. Qed.

(** 0.1 is 0x1.999999999999ap-4. *)
Example ofDecimal_tenth : ofDecimal 1 (-1) = S754_finite false 7205759403792794 (-56).
Proof. vm_compute. reflexivity. Qed.

Example toString_examples :
  map toString
    [ ofZ 0; ofZ 1; ofZ (-5); ofDecimal 15 (-1); ofDecimal 123 (-8);
      ofDecimal 1 (-7); ofDecimal 1 21; ofDecimal 1 23; ofDecimal 5 (-324);
      ofDecimal 17976931348623157 292;
      sub (ofDecimal 3 (-1)) (ofDecimal 1 (-1));
      sub (ofDecimal 489 (-1)) (ofDecimal 488 (-1)) ]
  = [ "0"; "1"; "-5"; "1.5"; "0.00000123"; "1e-7"; "1e+21"; "1e+23"; "5e-324";
      "1.7976931348623157e+308"; "0.19999999999999998";
      "0.10000000000000142" ].
Proof. vm_compute. reflexivity. Qed.

Example ceil_examples :
  map (fun x => toString (ceil x))
    [ ofDecimal 5 (-1); SFopp (ofDecimal 5 (-1)); SFopp (ofDecimal 15 (-1));
      ofDecimal 25 (-1); ofZ 7 ]
  = [ "1"; "0"; "-1"; "3"; "7" ].
Proof. vm_compute. reflexivity. Qed.

(** [addInt] agrees with binary64 addition beyond [2^53]. *)
Example addInt_rounds :
  ofZ (addInt maxTime (maxTime - 1)) = SFadd prec emax (ofZ maxTime) (ofZ (maxTime - 1))
  /\ ofZ (addInt maxTime (maxTime - 3)) = SFadd prec emax (ofZ maxTime) (ofZ (maxTime - 3))
  /\ ofZ (addInt (- maxTime) (5 - maxTime))
     = SFadd prec emax (ofZ (- maxTime)) (ofZ (5 - maxTime)).
Proof. vm_compute. auto. Qed.

End RuntimeExamples.

(* ===================================================================== *)
(** ** Properties of the service *)
(* ===================================================================== *)

Module SortFacts.
Import QueryService.

Section Generic.
Context {A : Type} (positive : A -> A -> bool).

Lemma sort_insert_Permutation x l :
  Permutation (x :: l) (sort_insert positive x l).
Proof.
  induction l as [|y l IH]; simpl; [reflexivity|].
  destruct (positive x y); [|reflexivity].
  rewrite perm_swap. now apply perm_skip.
Qed.

Lemma sort_insert_head x l :
  Forall (fun y => positive x y = false) l -> sort_insert positive x l = x :: l.
Proof.
  intros H. destruct l as [|y l]; [reflexivity|]. simpl.
  apply Forall_inv in H. now rewrite H.
Qed.

(** Insertion keeps a list in order when the comparator is a strict order
    on the elements at hand: never positive both ways, and never positive
    from [x] to [z] unless positive from [x] to [y] or from [y] to [z]. *)
Lemma sort_insert_sorted (P : A -> Prop) x l :
  (forall a b, P a -> P b -> positive a b = true -> positive b a = false) ->
  (forall a b c, P a -> P b -> P c ->
                 positive a b = false -> positive b c = false ->
                 positive a c = false) ->
  P x -> Forall P l ->
  StronglySorted (fun a b => positive a b = false) l ->
  StronglySorted (fun a b => positive a b = false) (sort_insert positive x l).
Proof.
  intros Hanti Htrans Hx HP Hs.
  induction Hs as [|y l Hs IH Hy]; simpl.
  - repeat constructor.
  - apply Forall_cons_iff in HP as [HPy HPl].
    destruct (positive x y) eqn:E.
    + constructor; [now apply IH|].
      apply (Permutation_Forall (sort_insert_Permutation x l)).
      constructor; [|exact Hy]. now apply Hanti.
    + constructor; [now constructor|].
      constructor; [exact E|].
      rewrite Forall_forall in Hy, HPl. apply Forall_forall.
      intros z Hz. apply (Htrans x y z); auto.
Qed.

End Generic.

End SortFacts.

Module QueryFacts.
Import JSString JSDate QueryService StringFacts DateFacts NumberFacts ServiceFacts.

(** *** Ascending dates *)

Lemma byTime_not_later d1 d2 :
  is_Some (getTime d1) -> is_Some (getTime d2) ->
  byTime d1 d2 = false <-> not_later d1 d2.
Proof.
  intros [t1 H1] [t2 H2]. unfold byTime, not_later, num_gt, num_lt, num_ge.
  rewrite H1, H2. rewrite Z.ltb_ge, Z.leb_le. reflexivity.
Qed.

Lemma inWindow_valid date : inWindow date = true -> is_Some (getTime date).
Proof.
  intros (y & Hy & _)%inWindow_iff. unfold getUTCFullYear in Hy. unfold getTime.
  destruct (timeValue date); [eauto|discriminate].
Qed.

Lemma sort_byTime_sorted l :
  Forall (fun d => is_Some (getTime d)) l ->
  StronglySorted (fun a b => byTime a b = false) (sort byTime l).
Proof.
  induction l as [|d l IH]; intros Hl; simpl; [constructor|].
  apply Forall_cons_iff in Hl as [Hd Hl].
  apply SortFacts.sort_insert_sorted with (P := fun d => is_Some (getTime d)).
  - intros a b [ta Ha] [tb Hb]. unfold byTime, num_gt, num_lt.
    rewrite Ha, Hb. rewrite Z.ltb_lt, Z.ltb_ge. lia.
  - intros a b c [ta Ha] [tb Hb] [tc Hc]. unfold byTime, num_gt, num_lt.
    rewrite Ha, Hb, Hc. rewrite !Z.ltb_ge. lia.
  - exact Hd.
  - assert (Hp : Permutation l (sort byTime l)).
    { clear. induction l as [|x l IH]; simpl; [reflexivity|].
      rewrite <- SortFacts.sort_insert_Permutation. now apply perm_skip. }
    now rewrite <- Hp.
  - now apply IH.
Qed.

Lemma StronglySorted_weaken {A} (P : A -> Prop) (R R' : A -> A -> Prop) l :
  (forall a b, P a -> P b -> R a b -> R' a b) ->
  Forall P l -> StronglySorted R l -> StronglySorted R' l.
Proof.
  intros HR HP Hs. induction Hs as [|x l Hs IH Hx]; [constructor|].
  apply Forall_cons_iff in HP as [HPx HPl].
  constructor; [now apply IH|].
  rewrite Forall_forall in *. intros y Hy. apply HR; auto.
Qed.

Lemma StronglySorted_endpoints {A} (R : A -> A -> Prop) l first last_ :
  (forall a, In a l -> R a a) ->
  StronglySorted R l ->
  l !! 0%nat = Some first -> l !! (length l - 1)%nat = Some last_ ->
  R first last_.
Proof.
  intros Hrefl Hs Hf Hl. destruct l as [|x l]; [discriminate|].
  injection Hf as ->. apply StronglySorted_inv in Hs as [_ Hx].
  destruct l as [|y l].
  - injection Hl as <-. apply Hrefl. now left.
  - rewrite Forall_forall in Hx. apply Hx.
    apply list_elem_of_lookup. exists (length (y :: l) - 1)%nat.
    simpl in *. now rewrite Nat.sub_0_r in *.
Qed.

End QueryFacts.

(* ===================================================================== *)
(** ** The order of the Scores *)
(* ===================================================================== *)

Module ScoreFacts.
Import JSNumber QueryService.

(** *** Shifts to the right *)

Lemma shr_1_m mrs : 0 <= shr_m mrs -> shr_m (shr_1 mrs) = shr_m mrs / 2.
Proof.
  destruct mrs as [m r s]. cbn [shr_m]. intros Hm. unfold shr_1.
  destruct m as [|[p|p|]|p]; cbn [shr_m].
  - reflexivity.
  - rewrite (Pos2Z.inj_xI p). Z.div_mod_to_equations. lia.
  - rewrite (Pos2Z.inj_xO p). Z.div_mod_to_equations. lia.
  - reflexivity.
  - lia.
Qed.

Lemma pow2_xI p : 2 ^ Zpos p~1 = 2 * (2 ^ Zpos p * 2 ^ Zpos p).
Proof.
  rewrite (Pos2Z.inj_xI p).
  replace (2 * Zpos p + 1) with (1 + Zpos p + Zpos p) by lia.
  rewrite !Z.pow_add_r by lia. change (2 ^ 1) with 2. ring.
Qed.

Lemma pow2_xO p : 2 ^ Zpos p~0 = 2 ^ Zpos p * 2 ^ Zpos p.
Proof.
  rewrite (Pos2Z.inj_xO p).
  replace (2 * Zpos p) with (Zpos p + Zpos p) by lia.
  now rewrite Z.pow_add_r by lia.
Qed.

Lemma iter_shr_1_m p : forall mrs,
  0 <= shr_m mrs ->
  shr_m (SpecFloat.iter_pos shr_1 p mrs) = shr_m mrs / 2 ^ Zpos p.
Proof.
  induction p as [p IH|p IH|]; intros mrs Hm; cbn [SpecFloat.iter_pos].
  - assert (H1 : 0 <= shr_m (shr_1 mrs))
      by (rewrite shr_1_m by assumption; apply Z.div_pos; lia).
    assert (H2 : 0 <= shr_m (SpecFloat.iter_pos shr_1 p (shr_1 mrs)))
      by (rewrite IH by assumption; apply Z.div_pos; lia).
    rewrite !IH, shr_1_m by assumption.
    rewrite !Z.div_div by lia. now rewrite pow2_xI.
  - assert (H2 : 0 <= shr_m (SpecFloat.iter_pos shr_1 p mrs))
      by (rewrite IH by assumption; apply Z.div_pos; lia).
    rewrite !IH by assumption. rewrite Z.div_div by lia. now rewrite pow2_xO.
  - now apply shr_1_m.
Qed.

Lemma digits2_pos_bounds p :
  2 ^ (Zpos (digits2_pos p) - 1) <= Zpos p < 2 ^ Zpos (digits2_pos p).
Proof.
  induction p as [p IH|p IH|]; cbn [digits2_pos]; [| |vm_compute; intuition discriminate];
    rewrite Pos2Z.inj_succ;
    replace (Z.succ (Zpos (digits2_pos p)) - 1) with (Zpos (digits2_pos p)) by lia;
    rewrite Z.pow_succ_r by lia;
    replace (2 ^ Zpos (digits2_pos p))
      with (2 * 2 ^ (Zpos (digits2_pos p) - 1)) in *
      by (rewrite <- Z.pow_succ_r by lia; f_equal; lia);
    [rewrite (Pos2Z.inj_xI p)|rewrite (Pos2Z.inj_xO p)]; lia.
Qed.

(** *** The sign of a rounded number *)

Lemma shr_record_of_loc_m m l : shr_m (shr_record_of_loc m l) = m.
Proof. now destruct l as [|[]]. Qed.

Lemma shr_fexp_positive m e l :
  0 < m -> least_exponent <= e ->
  0 < shr_m (fst (shr_fexp prec emax m e l))
  /\ least_exponent <= snd (shr_fexp prec emax m e l).
Proof.
  intros Hm He. destruct m as [|p|p]; try lia.
  unfold shr_fexp, shr, fexp, Zdigits2.
  change (emin prec emax) with least_exponent.
  pose proof (digits2_pos_bounds p) as [Hlo _].
  set (d := Zpos (digits2_pos p)) in *.
  assert (Hd : 0 < d) by (unfold d; lia).
  destruct (Z.max (d + e - prec) least_exponent - e) as [|n|n] eqn:En;
    cbn [fst snd]; rewrite ?shr_record_of_loc_m; try (split; lia).
  assert (Hn : Zpos n = d - prec) by lia.
  rewrite iter_shr_1_m by (rewrite shr_record_of_loc_m; lia).
  rewrite shr_record_of_loc_m. split; [|lia].
  apply Z.div_str_pos. split; [apply Z.pow_pos_nonneg; lia|].
  etransitivity; [|exact Hlo].
  apply Z.pow_le_mono_r; [lia|]. unfold prec in Hn. lia.
Qed.

Lemma round_nearest_even_positive m l : 0 < m -> 0 < round_nearest_even m l.
Proof.
  intros Hm. unfold round_nearest_even.
  destruct l as [|[]]; try destruct (Z.even m); lia.
Qed.

(** A number other than 0, rounded, keeps its sign and is not 0, from the
    least exponent on. *)
Lemma binary_round_aux_sign sx m e l :
  0 < m -> least_exponent <= e ->
  (exists m' e', binary_round_aux prec emax sx m e l = S754_finite sx m' e')
  \/ binary_round_aux prec emax sx m e l = S754_infinity sx.
Proof.
  intros Hm He. unfold binary_round_aux.
  destruct (shr_fexp_positive m e l Hm He) as [H1 H1e].
  destruct (shr_fexp prec emax m e l) as [mrs' e'] eqn:E1. cbn [fst snd] in *.
  pose proof (round_nearest_even_positive (shr_m mrs') (loc_of_shr_record mrs') H1) as H2.
  destruct (shr_fexp_positive _ e' loc_Exact H2 H1e) as [H3 _].
  destruct (shr_fexp prec emax _ e' loc_Exact) as [mrs'' e''] eqn:E2.
  cbn [fst snd] in *.
  destruct (shr_m mrs'') as [|m'|m']; try lia.
  destruct (e'' <=? emax - prec); eauto.
Qed.

Lemma iter_xO m d : Zpos (Pos.iter xO m d) = Zpos m * 2 ^ Zpos d.
Proof.
  induction d as [|d IH] using Pos.peano_ind.
  - cbn [Pos.iter]. rewrite (Pos2Z.inj_xO m). change (2 ^ 1) with 2. lia.
  - rewrite Pos.iter_succ, (Pos2Z.inj_xO (Pos.iter xO m d)), IH.
    rewrite Pos2Z.inj_succ, Z.pow_succ_r by lia. ring.
Qed.

Lemma shl_align_value m e e' :
  e' <= e -> Zpos (fst (shl_align m e e')) = Zpos m * 2 ^ (e - e').
Proof.
  intros He. unfold shl_align.
  destruct (e' - e) as [|d|d] eqn:Ed; cbn [fst]; try lia.
  - replace (e - e') with 0 by lia. cbn. lia.
  - rewrite iter_xO. f_equal. f_equal. lia.
Qed.

Lemma shl_align_exponent m e e' :
  least_exponent <= e -> least_exponent <= e' ->
  least_exponent <= snd (shl_align m e e').
Proof.
  intros He He'. unfold shl_align. now destruct (e' - e); cbn [snd].
Qed.

Lemma binary_round_sign sx m e :
  least_exponent <= e ->
  (exists m' e', binary_round prec emax sx m e = S754_finite sx m' e')
  \/ binary_round prec emax sx m e = S754_infinity sx.
Proof.
  intros He. unfold binary_round.
  pose proof (shl_align_exponent m e
                (fexp prec emax (Zpos (digits2_pos m) + e)) He) as Hs.
  destruct (shl_align m e _) as [mz ez]. cbn [snd] in Hs.
  apply binary_round_aux_sign; [lia|]. apply Hs.
  unfold fexp. change (emin prec emax) with least_exponent. lia.
Qed.

Lemma binary_normalize_positive z e :
  least_exponent <= e ->
  ltb (S754_zero false) (binary_normalize prec emax z e false) = (0 <? z).
Proof.
  intros He. unfold ltb, SFltb. destruct z as [|m|m]; cbn [binary_normalize].
  - reflexivity.
  - destruct (binary_round_sign false m e He) as [(m' & e' & ->)| ->];
      reflexivity.
  - destruct (binary_round_sign true m e He) as [(m' & e' & ->)| ->];
      reflexivity.
Qed.

(** *** The comparator of [createQuery] *)

Lemma representable_exponent s m e :
  representable (S754_finite s m e) = true -> least_exponent <= e.
Proof.
  unfold representable, valid_binary, bounded, canonical_mantissa, fexp.
  change (emin prec emax) with least_exponent.
  intros [H _]%andb_true_iff. apply Z.eqb_eq in H. lia.
Qed.

Lemma exact_aligned s m e e' :
  least_exponent <= e' -> e' <= e ->
  exact (S754_finite s m e)
  = cond_Zopp s (Zpos (fst (shl_align m e e'))) * 2 ^ (e' - least_exponent).
Proof.
  intros H1 H2. unfold exact. change (emin prec emax) with least_exponent.
  rewrite shl_align_value by assumption.
  replace (e - least_exponent) with ((e - e') + (e' - least_exponent)) by lia.
  rewrite Z.pow_add_r by lia. destruct s; cbn [cond_Zopp]; ring.
Qed.

(** On finite Scores the comparator is positive exactly when the first
    Score is the smaller one. *)
Lemma byScore_exact e1 e2 :
  finite (Score e1) = true -> representable (Score e1) = true ->
  finite (Score e2) = true -> representable (Score e2) = true ->
  byScore e1 e2 = (exact (Score e1) <? exact (Score e2)).
Proof.
  unfold byScore. generalize (Score e1) (Score e2). intros x y Hfx Hrx Hfy Hry.
  destruct x as [sx|sx| |sx mx ex]; try discriminate;
    destruct y as [sy|sy| |sy my ey]; try discriminate.
  - now destruct sx, sy.
  - cbn [sub SFsub exact]. unfold ltb, SFltb, SFcompare.
    destruct sy; cbn [cond_Zopp]; symmetry;
      [apply Z.ltb_ge|apply Z.ltb_lt];
      pose proof (Z.pow_pos_nonneg 2 (ey - emin prec emax) ltac:(lia)
                    ltac:(pose proof (representable_exponent _ _ _ Hry);
                          unfold least_exponent in *; lia)); nia.
  - cbn [sub SFsub exact]. unfold ltb, SFltb, SFcompare.
    destruct sx; cbn [negb cond_Zopp]; symmetry;
      [apply Z.ltb_lt|apply Z.ltb_ge];
      pose proof (Z.pow_pos_nonneg 2 (ex - emin prec emax) ltac:(lia)
                    ltac:(pose proof (representable_exponent _ _ _ Hrx);
                          unfold least_exponent in *; lia)); nia.
  - pose proof (representable_exponent _ _ _ Hrx) as Hex.
    pose proof (representable_exponent _ _ _ Hry) as Hey.
    unfold sub, SFsub.
    rewrite binary_normalize_positive by lia.
    rewrite (exact_aligned sx mx ex (Z.min ey ex)) by lia.
    rewrite (exact_aligned sy my ey (Z.min ey ex)) by lia.
    pose proof (Z.pow_pos_nonneg 2 (Z.min ey ex - least_exponent)
                  ltac:(lia) ltac:(lia)) as Hp.
    apply eq_true_iff_eq. rewrite !Z.ltb_lt. nia.
Qed.

End ScoreFacts.

Module ConfidenceFacts.
Import JSNumber QueryService ScoreFacts.

Lemma byScore_well_scored a b :
  well_scored a -> well_scored b ->
  byScore a b = (exact (Score a) <? exact (Score b)).
Proof. intros [? ?] [? ?]. now apply byScore_exact. Qed.

Lemma sort_byScore_Permutation l : Permutation l (sort byScore l).
Proof.
  induction l as [|x l IH]; simpl; [reflexivity|].
  rewrite <- SortFacts.sort_insert_Permutation. now apply perm_skip.
Qed.

Lemma sort_byScore_descending l :
  Forall well_scored l ->
  StronglySorted (fun a b => exact (Score b) <= exact (Score a)) (sort byScore l).
Proof.
  intros Hl.
  assert (Hs : StronglySorted (fun a b => byScore a b = false) (sort byScore l)).
  { induction l as [|x l IH]; simpl; [constructor|].
    apply Forall_cons_iff in Hl as [Hx Hl].
    apply SortFacts.sort_insert_sorted with (P := well_scored).
    - intros a b Ha Hb. rewrite !byScore_well_scored by assumption.
      rewrite Z.ltb_lt, Z.ltb_ge. lia.
    - intros a b c Ha Hb Hc. rewrite !byScore_well_scored by assumption.
      rewrite !Z.ltb_ge. lia.
    - exact Hx.
    - now rewrite <- sort_byScore_Permutation.
    - now apply IH. }
  apply QueryFacts.StronglySorted_weaken
    with (P := well_scored) (R := fun a b => byScore a b = false).
  - intros a b Ha Hb. rewrite byScore_well_scored by assumption.
    now rewrite Z.ltb_ge.
  - now rewrite <- sort_byScore_Permutation.
  - exact Hs.
Qed.

(** Insertion puts an entity before the ones of its own Score. *)
Lemma sort_insert_stable k x l :
  well_scored x -> Forall well_scored l ->
  List.filter (fun e => exact (Score e) =? k) (sort_insert byScore x l)
  = List.filter (fun e => exact (Score e) =? k) (x :: l).
Proof.
  intros Hx Hl. induction l as [|y l IH]; [reflexivity|].
  apply Forall_cons_iff in Hl as [Hy Hl].
  cbn [sort_insert]. rewrite byScore_well_scored by assumption.
  destruct (Z.ltb_spec (exact (Score x)) (exact (Score y))) as [Hlt|Hge];
    [|reflexivity].
  cbn [List.filter] in *. rewrite (IH Hl).
  destruct (Z.eqb_spec (exact (Score x)) k), (Z.eqb_spec (exact (Score y)) k);
    try reflexivity; lia.
Qed.

Lemma sort_byScore_stable k l :
  Forall well_scored l ->
  List.filter (fun e => exact (Score e) =? k) (sort byScore l)
  = List.filter (fun e => exact (Score e) =? k) l.
Proof.
  induction l as [|x l IH]; intros Hl; [reflexivity|].
  apply Forall_cons_iff in Hl as [Hx Hl]. cbn [sort].
  rewrite sort_insert_stable;
    [|exact Hx|now rewrite <- sort_byScore_Permutation].
  cbn [List.filter]. now rewrite (IH Hl).
Qed.

(** On finite Scores the sort of the model returns the entities in
    descending order of Score, equal Scores in the order given. *)
Lemma sort_by_confidence l : finite_scores l -> by_confidence l (sort byScore l).
Proof.
  intros Hl. split; [apply sort_byScore_Permutation|].
  split; [now apply sort_byScore_descending|].
  intros k. now apply sort_byScore_stable.
Qed.

End ConfidenceFacts.

Module OrderFacts.
Import JSNumber QueryService ConfidenceFacts.

Section Keyed.
Context {A : Type} (key : A -> Z).

Abbreviation keyed k := (List.filter (fun a => key a =? k)).
Abbreviation descending := (StronglySorted (fun a b => key b <= key a)).

Lemma keyed_head a l : keyed (key a) (a :: l) = a :: keyed (key a) l.
Proof. simpl. now rewrite Z.eqb_refl. Qed.

Lemma keyed_In a l : In a l -> In a (keyed (key a) l).
Proof. intros H. apply filter_In. split; [exact H|apply Z.eqb_refl]. Qed.

Lemma descending_head a b l : descending (a :: l) -> In b (a :: l) -> key b <= key a.
Proof.
  intros [_ H]%StronglySorted_inv [<-|Hb]; [lia|].
  rewrite List.Forall_forall in H. now apply H.
Qed.

(** A descending list is determined by its elements of each key, in their
    order. *)
Lemma descending_keyed_eq (l1 l2 : list A) :
  descending l1 -> descending l2 ->
  (forall k, keyed k l1 = keyed k l2) -> l1 = l2.
Proof.
  revert l2. induction l1 as [|a l1 IH]; intros l2 H1 H2 Hk.
  - destruct l2 as [|b l2]; [reflexivity|].
    specialize (Hk (key b)). rewrite keyed_head in Hk. discriminate.
  - destruct l2 as [|b l2].
    { specialize (Hk (key a)). rewrite keyed_head in Hk. discriminate. }
    assert (Hab : key a = key b).
    { apply Z.le_antisymm.
      - apply (descending_head b a l2 H2).
        assert (H : In a (keyed (key a) (b :: l2))).
        { rewrite <- Hk. apply keyed_In. now left. }
        now apply filter_In in H as [H _].
      - apply (descending_head a b l1 H1).
        assert (H : In b (keyed (key b) (a :: l1))).
        { rewrite Hk. apply keyed_In. now left. }
        now apply filter_In in H as [H _]. }
    pose proof (Hk (key a)) as Ha. rewrite keyed_head in Ha.
    rewrite Hab in Ha. rewrite keyed_head in Ha.
    injection Ha as -> Ha. f_equal.
    apply StronglySorted_inv in H1 as [H1 _].
    apply StronglySorted_inv in H2 as [H2 _].
    apply IH; [exact H1|exact H2|].
    intros k. destruct (Z.eq_dec (key b) k) as [<-|Hne].
    + exact Ha.
    + specialize (Hk k). simpl in Hk.
      apply Z.eqb_neq in Hne. now rewrite Hne in Hk.
Qed.

End Keyed.

(** The order of the confidence is one order. *)
Lemma by_confidence_unique given sorted sorted' :
  by_confidence given sorted -> by_confidence given sorted' -> sorted = sorted'.
Proof.
  intros (_ & H1 & K1) (_ & H2 & K2).
  apply (descending_keyed_eq (fun e => exact (Score e))); [exact H1|exact H2|].
  intros k. now rewrite K1, K2.
Qed.

Lemma by_confidence_sort given sorted :
  finite_scores given -> by_confidence given sorted ->
  sorted = sort byScore given.
Proof.
  intros Hf Hs. apply (by_confidence_unique given); [exact Hs|].
  now apply sort_by_confidence.
Qed.

(** The first location of a list in descending order of the Score is the
    text of a LOCATION entity of the greatest Score. *)
Lemma toLocations_first_greatest entities location0 locations :
  StronglySorted (fun a b => exact (Score b) <= exact (Score a)) entities ->
  toLocations entities = location0 :: locations ->
  exists entity,
    In entity entities /\ Type_ entity = "LOCATION" /\ Text entity = location0
    /\ forall other, In other entities -> Type_ other = "LOCATION" ->
                     exact (Score other) <= exact (Score entity).
Proof.
  induction 1 as [|e l Hs IH He]; [discriminate|].
  unfold toLocations. simpl.
  destruct (String.eqb (Type_ e) "LOCATION") eqn:E.
  - intros [= <- _]. exists e. apply String.eqb_eq in E.
    repeat split; [now left|exact E|].
    intros other [<-|Hin] _; [lia|].
    rewrite List.Forall_forall in He. now apply He.
  - intros Hl. destruct (IH Hl) as (entity & Hin & Hty & Htext & Hmax).
    exists entity. repeat split; [now right|exact Hty|exact Htext|].
    intros other [<-|Ho] Hto.
    + apply String.eqb_eq in Hto. congruence.
    + now apply Hmax.
Qed.

End OrderFacts.

Module StoreFacts.
Import JSString JSDate QueryService.

Lemma bind_Ok {W A B} (m : io W A) (k : A -> io W B) w a w' :
  m w = (Ok a, w') -> (m ≫= k) w = k a w'.
Proof. intros H. unfold mbind, io_bind. now rewrite H. Qed.

Lemma bind_Throw {W A B} (m : io W A) (k : A -> io W B) w f w' :
  m w = (Throw f, w') -> (m ≫= k) w = (Throw f, w').
Proof. intros H. unfold mbind, io_bind. now rewrite H. Qed.

Lemma read_Some s r o : s !! r = Some o -> Store.read r s = (Ok o, s).
Proof. intros H. unfold Store.read. now rewrite H. Qed.

Lemma readQuery_Some s r a b c v :
  s !! r = Some (Store.QueryObject a b c v) ->
  Store.readQuery r s = (Ok (a, c, v), s).
Proof.
  intros H. unfold Store.readQuery. now rewrite (bind_Ok _ _ _ _ _ (read_Some _ _ _ H)).
Qed.

Lemma readDateRange_Some s r a b :
  s !! r = Some (Store.DateRangeObject a b) ->
  Store.readDateRange r s = (Ok (Range.mk a b), s).
Proof.
  intros H. unfold Store.readDateRange.
  now rewrite (bind_Ok _ _ _ _ _ (read_Some _ _ _ H)).
Qed.

Lemma readCoordinates_Some s r a b :
  s !! r = Some (Store.CoordinatesObject a b) ->
  Store.readCoordinates r s = (Ok (a, b), s).
Proof.
  intros H. unfold Store.readCoordinates.
  now rewrite (bind_Ok _ _ _ _ _ (read_Some _ _ _ H)).
Qed.

Lemma readNumberRange_Some s r a b :
  s !! r = Some (Store.NumberRangeObject a b) ->
  Store.readNumberRange r s = (Ok (Range.mk a b), s).
Proof.
  intros H. unfold Store.readNumberRange.
  now rewrite (bind_Ok _ _ _ _ _ (read_Some _ _ _ H)).
Qed.

Lemma getMax_Some s r a b :
  s !! r = Some (Store.NumberRangeObject a b) -> Store.getMax r s = (Ok b, s).
Proof.
  intros H. unfold Store.getMax.
  now rewrite (bind_Ok _ _ _ _ _ (readNumberRange_Some _ _ _ _ H)).
Qed.

Lemma getMin_Some s r a b :
  s !! r = Some (Store.NumberRangeObject a b) -> Store.getMin r s = (Ok a, s).
Proof.
  intros H. unfold Store.getMin.
  now rewrite (bind_Ok _ _ _ _ _ (readNumberRange_Some _ _ _ _ H)).
Qed.

Lemma mapArray_Ok {A B} (callback : A -> io Store.store B) array s ys :
  Forall2 (fun x y => callback x s = (Ok y, s)) array ys ->
  Store.mapArray callback array s = (Ok ys, s).
Proof.
  induction 1 as [|x y array ys Hx _ IH]; [reflexivity|].
  cbn [Store.mapArray].
  rewrite (bind_Ok _ _ _ _ _ Hx). now rewrite (bind_Ok _ _ _ _ _ IH).
Qed.

Lemma getTime_Some s r t :
  s !! r = Some (Store.DateObject t) -> Store.getTime r s = (Ok t, s).
Proof.
  intros H. unfold Store.getTime.
  now rewrite (bind_Ok _ _ _ _ _ (read_Some _ _ _ H)).
Qed.

Lemma toISOString_Some s r t :
  s !! r = Some (Store.DateObject t) ->
  Store.toISOString r s = (orThrow RangeError (toISOString (mkDate t)), s).
Proof.
  intros H. unfold Store.toISOString.
  now rewrite (bind_Ok _ _ _ _ _ (read_Some _ _ _ H)).
Qed.

(** What is in the store stays where it is when an object is created. *)
Lemma lookup_create (s : Store.store) r o o' :
  s !! r = Some o -> (s ++ [o']) !! r = Some o.
Proof. intros H. now apply lookup_app_l_Some. Qed.

Lemma holds_create {G} s r (q : Query G) o :
  Store.holds s r q -> Store.holds (s ++ [o]) r q.
Proof.
  intros (a & b & c & d & e & f & g & H1 & H2 & H3 & H4 & H5 & H6 & H7).
  exists a, b, c, d, e, f, g.
  repeat split; now apply lookup_create.
Qed.

(** On a store that holds [q] at [r], the call returns what
    [toDataRequest q] is, and creates one [Date]: the midpoint. *)
Lemma toDataRequest_holds {G} s r (q : Query G) :
  Store.holds s r q ->
  Store.toDataRequest r s
  = (toDataRequest q,
     s ++ [Store.DateObject
             (timeValue
                (newDate (midpoint (getTime (Range.max (dateRange q)))
                            (getTime (Range.min (dateRange q))))))]).
Proof.
  intros (a & b & c & d & e & f & g & H1 & H2 & H3 & H4 & H5 & H6 & H7).
  unfold Store.toDataRequest.
  rewrite (bind_Ok _ _ _ _ _ (readQuery_Some _ _ _ _ _ _ H1)).
  rewrite (bind_Ok _ _ _ _ _ (readDateRange_Some _ _ _ _ H2)).
  cbn [Range.max Range.min].
  rewrite (bind_Ok _ _ _ _ _ (getTime_Some _ _ _ H4)).
  rewrite (bind_Ok _ _ _ _ _ (readQuery_Some _ _ _ _ _ _ H1)).
  rewrite (bind_Ok _ _ _ _ _ (readDateRange_Some _ _ _ _ H2)).
  cbn [Range.max Range.min].
  rewrite (bind_Ok _ _ _ _ _ (getTime_Some _ _ _ H3)).
  unfold Store.newDate at 1.
  erewrite bind_Ok by (unfold Store.create; reflexivity).
  set (t := midpoint _ _ ≫= TimeClip).
  set (s' := s ++ [Store.DateObject t]).
  assert (Hnew : s' !! length s = Some (Store.DateObject t)).
  { subst s'. rewrite lookup_app_r by lia. now rewrite Nat.sub_diag. }
  assert (K1 := lookup_create s r _ (Store.DateObject t) H1).
  assert (K5 := lookup_create s c _ (Store.DateObject t) H5).
  assert (K6 := lookup_create s f _ (Store.DateObject t) H6).
  assert (K7 := lookup_create s g _ (Store.DateObject t) H7).
  fold s' in K1, K5, K6, K7.
  unfold toDataRequest, toDataRequest_locals.
  change (newDate (midpoint (getTime (Range.max (dateRange q)))
                     (getTime (Range.min (dateRange q)))))
    with (mkDate t).
  cbn [timeValue].
  destruct (toISOString (mkDate t)) as [isoDate|] eqn:Eiso.
  2:{ erewrite bind_Throw; [reflexivity|].
      rewrite (toISOString_Some _ _ _ Hnew), Eiso. reflexivity. }
  erewrite bind_Ok by (rewrite (toISOString_Some _ _ _ Hnew), Eiso; reflexivity).
  cbn [orThrow mbind result_bind].
  destruct (split "T" isoDate !! 1%nat) as [timePart|];
    [|reflexivity].
  cbn [fmap option_fmap option_map orThrow mbind result_bind].
  erewrite bind_Ok by reflexivity.
  destruct (split "T" isoDate !! 0%nat) as [datePart|];
    [|reflexivity].
  cbn [fmap option_fmap option_map orThrow mbind result_bind].
  erewrite bind_Ok by reflexivity.
  rewrite (bind_Ok _ _ _ _ _ (readQuery_Some _ _ _ _ _ _ K1)).
  rewrite (bind_Ok _ _ _ _ _ (readCoordinates_Some _ _ _ _ K5)).
  rewrite (bind_Ok _ _ _ _ _ (readQuery_Some _ _ _ _ _ _ K1)).
  rewrite (bind_Ok _ _ _ _ _ (readCoordinates_Some _ _ _ _ K5)).
  erewrite (bind_Ok _ _ _ [_; _]).
  2:{ apply mapArray_Ok. repeat constructor.
      - rewrite (bind_Ok _ _ _ _ _ (getMax_Some _ _ _ _ K6)).
        rewrite (bind_Ok _ _ _ _ _ (getMin_Some _ _ _ _ K6)). reflexivity.
      - rewrite (bind_Ok _ _ _ _ _ (getMax_Some _ _ _ _ K7)).
        rewrite (bind_Ok _ _ _ _ _ (getMin_Some _ _ _ _ K7)). reflexivity. }
  rewrite (bind_Ok _ _ _ _ _ (getMax_Some _ _ _ _ K6)).
  rewrite (bind_Ok _ _ _ _ _ (getMin_Some _ _ _ _ K7)).
  rewrite (bind_Ok _ _ _ _ _ (getMin_Some _ _ _ _ K6)).
  rewrite (bind_Ok _ _ _ _ _ (getMax_Some _ _ _ _ K7)).
  rewrite (bind_Ok _ _ _ _ _ (readQuery_Some _ _ _ _ _ _ K1)).
  reflexivity.
Qed.

End StoreFacts.

Import JSString JSDate QueryService StringFacts DateFacts NumberFacts ServiceFacts.

Section Collaborators.
Variable SugarDate_create : string -> Date.
Variable KeywordExtractor_extract : string -> list string.
Variable stemmer : string -> string.
Variable extractEntities : string -> result (list Entity).
Variables GoogleResult Geometry : Type.
Variable getGoogleResult : string -> result GoogleResult.
Variable geometry : GoogleResult -> Geometry.
Variable toGeoCoordinates : Geometry -> result GeoCoordinates.

Abbreviation service_createQuery :=
  (createQuery SugarDate_create KeywordExtractor_extract stemmer
     extractEntities GoogleResult Geometry getGoogleResult geometry
     toGeoCoordinates).
Abbreviation service_createQuery_entities :=
  (createQuery_entities SugarDate_create KeywordExtractor_extract stemmer
     GoogleResult Geometry getGoogleResult geometry toGeoCoordinates).

Lemma createQuery_extracted input awsEntities :
  extractEntities input = Ok awsEntities ->
  service_createQuery input = service_createQuery_entities input awsEntities.
Proof. intros H. unfold createQuery. now rewrite H. Qed.

(** C10. When the entity list has no LOCATION entity and no DATE entity
    that parses to a date with a year in 2008..2017, [createQuery] fails
    with NoDatesFound: the dates are checked before the locations. *)
Theorem createQuery_NoDatesFound_first input awsEntities :
  extractEntities input = Ok awsEntities ->
  (forall entity, In entity awsEntities -> Type_ entity <> "LOCATION") ->
  (forall entity, In entity awsEntities -> Type_ entity = "DATE" ->
                  ~ year_in_window (SugarDate_create (Text entity))) ->
  service_createQuery input = Throw (QueryFailure NoDatesFound).
Proof.
  intros Hex _ Hdates. rewrite (createQuery_extracted _ _ Hex).
  unfold createQuery_entities.
  remember (toDates SugarDate_create (sort byScore awsEntities)) as dates eqn:Ed.
  assert (Hnone : List.find inWindow dates = None).
  { destruct (List.find inWindow dates) as [date|] eqn:E; [|reflexivity].
    apply find_some in E as [Hin Hw]. subst dates.
    apply toDates_In in Hin as (entity & Hent & Hty & -> & _).
    apply sort_In in Hent. apply inWindow_iff in Hw.
    now destruct (Hdates entity Hent Hty). }
  destruct dates as [|date0 dates']; [reflexivity|].
  now rewrite Hnone.
Qed.

(** C3, as amended. When the entity list has no LOCATION entity and has a
    DATE entity that parses to a date with a year in 2008..2017,
    [createQuery] fails with NoLocationsFound. *)
Theorem createQuery_NoLocationsFound input awsEntities :
  extractEntities input = Ok awsEntities ->
  (forall entity, In entity awsEntities -> Type_ entity <> "LOCATION") ->
  (exists entity, In entity awsEntities /\ Type_ entity = "DATE"
                  /\ year_in_window (SugarDate_create (Text entity))) ->
  service_createQuery input = Throw (QueryFailure NoLocationsFound).
Proof.
  intros Hex Hloc (entity & Hent & Hty & Hwin).
  rewrite (createQuery_extracted _ _ Hex). unfold createQuery_entities.
  rewrite toLocations_nil
    by (intros e He; apply Hloc; now apply sort_In in He).
  remember (toDates SugarDate_create (sort byScore awsEntities)) as dates eqn:Ed.
  assert (Hin : In (SugarDate_create (Text entity)) dates).
  { subst dates. apply toDates_In. exists entity.
    repeat split; [now apply sort_In|exact Hty|].
    now apply year_in_window_after_minDate. }
  destruct (List.find inWindow dates) as [date|] eqn:E.
  - destruct dates as [|date0 dates']; [destruct Hin|reflexivity].
  - apply (find_none _ _ E) in Hin. apply inWindow_iff in Hwin. congruence.
Qed.

(** C5. For finite scores, the endpoints of the date range of a returned
    [Query] are the first and the last element of the list that [toDates]
    gives for the entities in the order of their confidence: descending
    Score, ties in the order of extraction.  That list is bounded from
    below only, by 2008-01-01, and is not in ascending order; the ascending
    copy of its dates within 2008..2017 is not what the endpoints are read
    from: on the sample [shuffled] both endpoints differ from the first and
    the last element of that copy. *)
Theorem createQuery_endpoints_by_confidence :
  (forall input awsEntities query,
      finite_scores awsEntities ->
      extractEntities input = Ok awsEntities ->
      service_createQuery input = Ok query ->
      exists entities,
        by_confidence awsEntities entities
        /\ (forall entities', by_confidence awsEntities entities' ->
                              entities' = entities)
        /\ let dates := toDates SugarDate_create entities in
           dates !! 0%nat = Some (Range.min (dateRange query))
           /\ dates !! (length dates - 1)%nat
              = Some (Range.max (dateRange query)))
  /\ (exists query,
        Samples.run Samples.shuffled Samples.question = Ok query
        /\ let copy :=
             ascending (toDates Samples.parse (sort byScore Samples.shuffled)) in
           copy !! 0%nat <> Some (Range.min (dateRange query))
           /\ copy !! (length copy - 1)%nat <> Some (Range.max (dateRange query))).
Proof.
  split.
  - intros input awsEntities query Hfinite Hex Hq.
    exists (sort byScore awsEntities).
    split; [now apply ConfidenceFacts.sort_by_confidence|].
    split; [intros entities' H'; now apply OrderFacts.by_confidence_sort|].
    intros dates. subst dates.
    rewrite (createQuery_extracted _ _ Hex) in Hq.
    unfold createQuery_entities in Hq.
    remember (toDates SugarDate_create (sort byScore awsEntities)) as dates eqn:Ed.
    destruct dates as [|date0 dates']; [discriminate|].
    destruct (negb (truthy_object (List.find inWindow (date0 :: dates'))));
      [discriminate|].
    destruct (toLocations (sort byScore awsEntities)) as [|location0 ?];
      [discriminate|].
    destruct (getGoogleResult location0) as [googleResult|]; [|discriminate].
    cbn [mbind result_bind] in Hq.
    destruct (toGeoCoordinates (geometry googleResult)) as [geoCoordinates|];
      [|discriminate].
    cbn [mbind result_bind] in Hq.
    destruct (toVariable KeywordExtractor_extract stemmer input); [|discriminate].
    injection Hq as <-. cbn [dateRange Range.min Range.max]. split.
    + reflexivity.
    + exact (last_lookup_default date0 (date0 :: dates') ltac:(discriminate)).
  - eexists. split; [vm_compute; reflexivity|].
    vm_compute. split; discriminate.
Qed.

End Collaborators.

Section Dates.
Variable SugarDate_create : string -> Date.

(** C2, as amended. Every element of the result of [toDates] is the parsed
    date of a DATE entity, and has a time value that is a number not
    before 2008-01-01T00:00:00Z, so a UTC year from 2008 on; the year is
    not bounded from above. *)
Theorem toDates_from_2008 entities date :
  In date (toDates SugarDate_create entities) ->
  (exists entity, In entity entities /\ Type_ entity = "DATE"
                  /\ date = SugarDate_create (Text entity))
  /\ exists t y, getTime date = Some t /\ 1199145600000 <= t
                 /\ getUTCFullYear date = Some y /\ 2007 < y.
Proof.
  intros (entity & Hent & Hty & Hd & Hge)%toDates_In. split; [eauto|].
  apply after_minDate_iff in Hge as (t & Ht & Hle).
  exists t, (YearFromTime t). repeat split; [exact Ht|exact Hle| |].
  - unfold getUTCFullYear. unfold getTime in Ht. now rewrite Ht.
  - apply YearFromTime_2008 in Hle. lia.
Qed.

End Dates.

Section Classifier.
Variable KeywordExtractor_extract : string -> list string.
Variable stemmer : string -> string.

(** C4. [toVariable] returns a variable exactly when it is the first one, in
    the order of the enumeration, some stem of whose vocabulary is a prefix
    of some extracted keyword; when the extractor keeps the word cold of
    "It was so cold and windy", that sentence is classified as
    Temperature. *)
Theorem toVariable_first_match :
  (forall input variable,
      toVariable KeywordExtractor_extract stemmer input = Some variable
      <-> matches (KeywordExtractor_extract input) variable
          /\ forall earlier, (ordinal earlier < ordinal variable)%nat ->
                             ~ matches (KeywordExtractor_extract input) earlier)
  /\ (In "cold" (KeywordExtractor_extract "It was so cold and windy") ->
      toVariable KeywordExtractor_extract stemmer "It was so cold and windy"
      = Some Temperature).
Proof.
  assert (Hfirst : forall input variable,
      toVariable KeywordExtractor_extract stemmer input = Some variable
      <-> matches (KeywordExtractor_extract input) variable
          /\ forall earlier, (ordinal earlier < ordinal variable)%nat ->
                             ~ matches (KeywordExtractor_extract input) earlier).
  { intros input variable. rewrite toVariable_unfold.
    set (words := KeywordExtractor_extract input).
    pose proof (variable_test_iff words Temperature) as H1.
    pose proof (variable_test_iff words TotalCloudCover) as H2.
    pose proof (variable_test_iff words TotalPrecipitation) as H3.
    pose proof (variable_test_iff words WindSpeed) as H4.
    cbn [List.find].
    split.
    - intros Hfind.
      destruct (variable_test words Temperature);
        [| destruct (variable_test words TotalCloudCover);
           [| destruct (variable_test words TotalPrecipitation);
              [| destruct (variable_test words WindSpeed); [|discriminate] ] ] ];
        injection Hfind as <-;
        (split; [tauto|]);
        intros [] Hlt; cbn [ordinal] in Hlt; try lia;
        intros Hm; (apply H1 in Hm || apply H2 in Hm || apply H3 in Hm);
        discriminate.
    - intros [Hm Hearlier].
      assert (Hnot : forall earlier,
                 (ordinal earlier < ordinal variable)%nat ->
                 variable_test words earlier = false).
      { intros earlier Hlt. apply not_true_is_false. intros Ht.
        apply (Hearlier earlier Hlt).
        destruct earlier; [apply H1|apply H2|apply H3|apply H4]; exact Ht. }
      destruct variable;
        [ apply H1 in Hm | apply H2 in Hm | apply H3 in Hm | apply H4 in Hm ];
        repeat match goal with
               | |- context [variable_test words ?v] =>
                   first [ rewrite Hm
                         | rewrite (Hnot v) by (cbn [ordinal]; lia) ]
               end;
        reflexivity. }
  split; [exact Hfirst|].
  intros Hcold. apply Hfirst. split.
  - exists "cold", "cold". repeat split; [|exact Hcold].
    vm_compute. auto.
  - intros earlier Hlt. cbn [ordinal] in Hlt. lia.
Qed.

End Classifier.

Section Requests.
Context {GoogleResult : Type}.
Implicit Type query : Query GoogleResult.

Ltac lookup_option :=
  cbn [options];
  repeat (rewrite lookup_insert_ne by discriminate);
  first [ apply lookup_insert_eq | apply lookup_empty ].

Lemma toDataRequest_of_locals query l :
  toDataRequest_locals query = Ok l ->
  exists r,
    toDataRequest query = Ok r
    /\ options r !! "year" = Some (ofOption (year l))
    /\ options r !! "month" = Some (ofOption (month l))
    /\ options r !! "day" = Some (ofOption (day l))
    /\ options r !! "grid" = Some (Arr (grid l))
    /\ options r !! "area" = Some (Arr (area l)).
Proof.
  intros Hl. unfold toDataRequest. rewrite Hl. cbn [mbind result_bind].
  eexists. split; [reflexivity|]. repeat split; lookup_option.
Qed.

Lemma toDataRequest_inv query r :
  toDataRequest query = Ok r ->
  exists l, toDataRequest_locals query = Ok l /\ toDataRequest query = Ok r.
Proof.
  intros Hr. unfold toDataRequest in Hr.
  destruct (toDataRequest_locals query) as [l|] eqn:Hl; [|discriminate].
  exists l. split; [reflexivity|]. unfold toDataRequest. now rewrite Hl.
Qed.

Lemma toDataRequest_locals_grid_area query l :
  toDataRequest_locals query = Ok l ->
  let lat := latitude (geoCoordinates query) in
  let lon := longitude (geoCoordinates query) in
  grid l = [ JSNumber.toString
               (JSNumber.ceil (JSNumber.sub (Range.max lat) (Range.min lat)));
             JSNumber.toString
               (JSNumber.ceil (JSNumber.sub (Range.max lon) (Range.min lon))) ]
  /\ area l = [ JSNumber.toString (Range.max lat);
                JSNumber.toString (Range.min lon);
                JSNumber.toString (Range.min lat);
                JSNumber.toString (Range.max lon) ].
Proof.
  unfold toDataRequest_locals. intros Hl.
  destruct (orThrow RangeError _) as [isoDate|];
    cbn [mbind result_bind] in Hl; [|discriminate].
  destruct (orThrow TypeError (split ":" <$> _)) as [timeParts|];
    cbn [mbind result_bind] in Hl; [|discriminate].
  destruct (orThrow TypeError (split "-" <$> _)) as [dateParts|];
    cbn [mbind result_bind] in Hl; [|discriminate].
  injection Hl as <-. split; reflexivity.
Qed.

(** The day number of every instant of 2015-03-01. *)
Lemma Day_2015_03_01 t :
  utcMidnight 2015 3 1 <= t < utcMidnight 2015 3 1 + msPerDay -> Day t = 16495.
Proof.
  change (utcMidnight 2015 3 1) with 1425168000000.
  unfold Day, msPerDay. intros H. Z.div_mod_to_equations. lia.
Qed.

Lemma pieces_2015_03_01 t :
  Day t = 16495 ->
  year_piece t = "2015" /\ month_piece t = "03" /\ day_piece t = "01".
Proof.
  intros HDay.
  unfold year_piece, month_piece, day_piece, MonthFromTime, DateFromTime,
    MonthFromTime, DayWithinYear, InLeapYear, YearFromTime.
  rewrite HDay. vm_compute. auto.
Qed.

(** C6. When both ends of the date range are instants of the UTC day
    2015-03-01 (midnight in particular), [toDataRequest] returns a request
    whose options have year "2015", month "03" and day "01"; and no request
    that [toDataRequest] returns, for any query, has a time or an hour
    property among its options. *)
Theorem toDataRequest_2015_03_01 query :
  (on_day 2015 3 1 (Range.min (dateRange query)) ->
   on_day 2015 3 1 (Range.max (dateRange query)) ->
   exists r, toDataRequest query = Ok r
             /\ options r !! "year" = Some (Str "2015")
             /\ options r !! "month" = Some (Str "03")
             /\ options r !! "day" = Some (Str "01"))
  /\ (forall r, toDataRequest query = Ok r ->
                options r !! "time" = None /\ options r !! "hour" = None).
Proof.
  split.
  - intros (a & Ha & Hda) (b & Hb & Hdb).
    assert (Hday := Hda). assert (Hdayb := Hdb).
    change (utcMidnight 2015 3 1) with 1425168000000 in Hda, Hdb.
    unfold msPerDay in Hda, Hdb.
    destruct (toDataRequest_locals_valid query a b Ha Hb)
      as (l & Hl & _ & _ & _ & Hy & Hm & Hd); [unfold maxTime; lia ..|].
    cbv zeta in Hy, Hm, Hd.
    assert (Hmid : utcMidnight 2015 3 1
                   <= JSNumber.roundHalf (JSNumber.addInt b a)
                   < utcMidnight 2015 3 1 + msPerDay).
    { change (utcMidnight 2015 3 1) with 1425168000000. unfold msPerDay.
      pose proof (midpoint_between 1425168000000 1425254399999 b a) as H.
      change (2 ^ 52) with 4503599627370496 in H. lia. }
    apply Day_2015_03_01, pieces_2015_03_01 in Hmid as (Ey & Em & Ed).
    rewrite Ey in Hy. rewrite Em in Hm. rewrite Ed in Hd.
    destruct (toDataRequest_of_locals query l Hl)
      as (r & Hr & Ry & Rm & Rd & _).
    exists r. rewrite Ry, Rm, Rd, Hy, Hm, Hd. auto.
  - intros r Hr. unfold toDataRequest in Hr.
    destruct (toDataRequest_locals query) as [l|]; [|discriminate].
    cbn [mbind result_bind] in Hr. injection Hr as <-.
    split; lookup_option.
Qed.

(** C7. In every request that [toDataRequest] returns, grid holds the
    strings of the ceilings of the latitude span and of the longitude span,
    and area the strings of the latitude maximum, the longitude minimum, the
    latitude minimum and the longitude maximum; for the bounding box lat
    [48.8, 48.9], lon [2.3, 2.4] these are ["1", "1"] and ["48.9", "2.3",
    "48.8", "2.4"]. *)
Theorem toDataRequest_grid_area query r :
  toDataRequest query = Ok r ->
  let lat := latitude (geoCoordinates query) in
  let lon := longitude (geoCoordinates query) in
  options r !! "grid"
  = Some (Arr [ JSNumber.toString
                  (JSNumber.ceil (JSNumber.sub (Range.max lat) (Range.min lat)));
                JSNumber.toString
                  (JSNumber.ceil (JSNumber.sub (Range.max lon) (Range.min lon))) ])
  /\ options r !! "area"
     = Some (Arr [ JSNumber.toString (Range.max lat);
                   JSNumber.toString (Range.min lon);
                   JSNumber.toString (Range.min lat);
                   JSNumber.toString (Range.max lon) ])
  /\ (geoCoordinates query = Samples.paris ->
      options r !! "grid" = Some (Arr ["1"; "1"])
      /\ options r !! "area" = Some (Arr ["48.9"; "2.3"; "48.8"; "2.4"])).
Proof.
  intros Hr lat lon.
  destruct (toDataRequest_inv query r Hr) as (l & Hl & _).
  destruct (toDataRequest_locals_grid_area query l Hl) as [Hg Ha].
  destruct (toDataRequest_of_locals query l Hl)
    as (r' & Hr' & _ & _ & _ & Rg & Ra).
  assert (r' = r) as -> by congruence.
  rewrite Hg in Rg. rewrite Ha in Ra.
  split; [exact Rg|]. split; [exact Ra|].
  intros Hparis. rewrite Rg, Ra. cbv zeta. rewrite Hparis.
  split; vm_compute; reflexivity.
Qed.

(** [toDataRequest] reads the date range, the bounding box and the variable
    of its argument, and nothing else. *)
Lemma toDataRequest_reads {G1 G2} (q1 : Query G1) (q2 : Query G2) :
  dateRange q1 = dateRange q2 ->
  geoCoordinates q1 = geoCoordinates q2 ->
  variable q1 = variable q2 ->
  toDataRequest q1 = toDataRequest q2.
Proof.
  intros Hd Hg Hv. unfold toDataRequest, toDataRequest_locals.
  now rewrite Hd, Hg, Hv.
Qed.

(** C8. Two calls of [toDataRequest] on the same query return the same
    value.  A call reads the dates, the bounding box and the variable of
    the query, creates one [Date], the midpoint, and writes to no object
    that exists; so the second call, which runs in the store that the
    first one leaves, finds what the first one found.  Both return what
    the function [toDataRequest] of the query is. *)
Theorem toDataRequest_repeatable (s : Store.store) (r : Store.ref) query :
  Store.holds s r query ->
  exists date,
    Store.toDataRequest r s = (toDataRequest query, s ++ [date])
    /\ Store.toDataRequest r (s ++ [date])
       = (toDataRequest query, s ++ [date; date]).
Proof.
  intros H. eexists. split.
  - now apply StoreFacts.toDataRequest_holds.
  - rewrite (StoreFacts.toDataRequest_holds _ _ query)
      by now apply StoreFacts.holds_create.
    now rewrite <- app_assoc.
Qed.

(** C9. On a query that meets the invariant, [toDataRequest] returns a
    request, and each array read on the way is within bounds: the date and
    time parts of the ISO string, the hour, the year, the month and the day
    are all defined. *)
Theorem toDataRequest_returns query :
  Query_invariant query ->
  (exists r, toDataRequest query = Ok r)
  /\ exists l, toDataRequest_locals query = Ok l
               /\ is_Some (datePart l) /\ is_Some (timePart l)
               /\ is_Some (hour l) /\ is_Some (year l)
               /\ is_Some (month l) /\ is_Some (day l).
Proof.
  intros ((a & Ha & Hra) & (b & Hb & Hrb) & _).
  destruct (toDataRequest_locals_valid query a b Ha Hb Hra Hrb)
    as (l & Hl & Hdp & Htp & Hh & Hy & Hm & Hd).
  split.
  - destruct (toDataRequest_of_locals query l Hl) as (r & Hr & _). eauto.
  - exists l. rewrite Hdp, Htp, Hh, Hy, Hm, Hd. repeat split; eauto.
Qed.

End Requests.

(* ===================================================================== *)
(** ** The service on the samples *)
(* ===================================================================== *)

Import Samples.

(** C1. On the entities of [late_first] the query that [createQuery] returns
    has a date range whose minimum, 2020-01-01, is later than its maximum,
    2015-03-01, and has a year beyond 2017; on those of [unordered], all
    within the window, the minimum, 2016-06-01, is later than the maximum,
    2012-05-05.  The endpoints are read in the order of the confidence, not
    from the ascending copy restricted to the window. *)
Theorem createQuery_range_out_of_order :
  (exists query,
      run late_first question = Ok query
      /\ toISOString (Range.min (dateRange query)) = Some "2020-01-01T00:00:00.000Z"
      /\ toISOString (Range.max (dateRange query)) = Some "2015-03-01T00:00:00.000Z"
      /\ num_gt (getTime (Range.min (dateRange query)))
                (getTime (Range.max (dateRange query))) = true
      /\ getUTCFullYear (Range.min (dateRange query)) = Some 2020)
  /\ (exists query,
        run unordered question = Ok query
        /\ toISOString (Range.min (dateRange query)) = Some "2016-06-01T00:00:00.000Z"
        /\ toISOString (Range.max (dateRange query)) = Some "2012-05-05T00:00:00.000Z"
        /\ num_gt (getTime (Range.min (dateRange query)))
                  (getTime (Range.max (dateRange query))) = true).
Proof.
  split; (eexists; split; [vm_compute; reflexivity|]);
    repeat split; vm_compute; reflexivity.
Qed.

(** C2 fails as stated: [toDates] keeps a date of the year 2020. *)
Lemma toDates_keeps_2020 :
  exists date,
    In date (toDates parse late_first)
    /\ getUTCFullYear date = Some 2020 /\ ~ (2007 < 2020 < 2018).
Proof.
  exists (newDateOfString "2020-01-01").
  split; [vm_compute; auto|]. split; [vm_compute; reflexivity|lia].
Qed.

(** C3 fails as stated: without a LOCATION entity and with a date before the
    window, the failure is NoDatesFound, not NoLocationsFound. *)
Lemma createQuery_no_location_NoDatesFound :
  (forall entity, In entity early_date -> Type_ entity <> "LOCATION")
  /\ run early_date question = Throw (QueryFailure NoDatesFound)
  /\ run early_date question <> Throw (QueryFailure NoLocationsFound).
Proof.
  split; [|split].
  - intros entity [<-|[]]. discriminate.
  - vm_compute. reflexivity.
  - vm_compute. discriminate.
Qed.

(** C10 at the sample [early_date]. *)
Lemma createQuery_NoDatesFound_first_witness :
  run early_date question = Throw (QueryFailure NoDatesFound).
Proof.
  apply (createQuery_NoDatesFound_first parse keywords stem (extract early_date)
           GeoCoordinates GeoCoordinates geocode (fun g => g) (fun g => Ok g)
           question early_date).
  - reflexivity.
  - intros entity [<-|[]]. discriminate.
  - intros entity [<-|[]] _ (y & Hy & Hwin).
    vm_compute in Hy. injection Hy as <-. lia.
Defined.

(** C3, as amended, at the sample [date_only]. *)
Lemma createQuery_NoLocationsFound_witness :
  run date_only question = Throw (QueryFailure NoLocationsFound).
Proof.
  apply (createQuery_NoLocationsFound parse keywords stem (extract date_only)
           GeoCoordinates GeoCoordinates geocode (fun g => g) (fun g => Ok g)
           question date_only).
  - reflexivity.
  - intros entity [<-|[]]. discriminate.
  - exists (mkEntity "DATE" "2015-03-01" (score 90)).
    split; [now left|]. split; [reflexivity|].
    exists 2015. split; [vm_compute; reflexivity|lia].
Defined.

(** C2, as amended, at the sample [late_first]. *)
Lemma toDates_from_2008_witness :
  exists t y,
    getTime day_2015_03_01 = Some t /\ 1199145600000 <= t
    /\ getUTCFullYear day_2015_03_01 = Some y /\ 2007 < y.
Proof.
  apply (toDates_from_2008 parse late_first day_2015_03_01).
  vm_compute. auto.
Defined.

(** C5 as first stated fails on the sample [late_first]: the list of the
    dates within 2008..2017, in the order of the confidence, begins with
    2015-03-01, and the range with 2020-01-01. *)
Lemma createQuery_min_beyond_window :
  exists query,
    run late_first question = Ok query
    /\ List.filter inWindow (toDates parse (sort byScore late_first)) !! 0%nat
       = Some (newDateOfString "2015-03-01")
    /\ Range.min (dateRange query) = newDateOfString "2020-01-01"
    /\ newDateOfString "2015-03-01" <> newDateOfString "2020-01-01".
Proof.
  eexists. split; [vm_compute; reflexivity|].
  vm_compute. repeat split. discriminate.
Qed.

Lemma shuffled_finite : finite_scores shuffled.
Proof. repeat constructor. Qed.

(** C5 at the sample [shuffled]: the range begins with the date of the
    greatest Score, the fifth entity, and ends with the date of the least
    Score. *)
Lemma createQuery_endpoints_by_confidence_witness :
  exists query,
    run shuffled question = Ok query
    /\ Range.min (dateRange query) = newDateOfString "2016-06-01"
    /\ Range.max (dateRange query) = newDateOfString "2012-05-05".
Proof.
  assert (H : exists query, run shuffled question = Ok query)
    by (eexists; vm_compute; reflexivity).
  destruct H as [query Hq]. exists query. split; [exact Hq|].
  destruct (proj1 (createQuery_endpoints_by_confidence parse keywords stem
                     (extract shuffled) GeoCoordinates GeoCoordinates geocode
                     (fun g => g) (fun g => Ok g))
              question shuffled query shuffled_finite eq_refl Hq)
    as (entities & Hby & _ & Hmin & Hmax).
  apply (OrderFacts.by_confidence_sort _ _ shuffled_finite) in Hby.
  subst entities. cbv zeta in Hmin, Hmax.
  assert (Efirst : toDates parse (sort byScore shuffled) !! 0%nat
                   = Some (newDateOfString "2016-06-01"))
    by (vm_compute; reflexivity).
  assert (Elast : toDates parse (sort byScore shuffled)
                    !! (length (toDates parse (sort byScore shuffled)) - 1)%nat
                  = Some (newDateOfString "2012-05-05"))
    by (vm_compute; reflexivity).
  rewrite Efirst in Hmin. rewrite Elast in Hmax.
  injection Hmin as Hmin. injection Hmax as Hmax. now split.
Defined.

(** C4 with the tokenizer on spaces. *)
Lemma toVariable_first_match_witness :
  toVariable keywords stem "It was so cold and windy" = Some Temperature.
Proof.
  apply (proj2 (toVariable_first_match keywords stem)).
  vm_compute. auto.
Defined.

(** C6 at midnight of 2015-03-01. *)
Lemma toDataRequest_2015_03_01_witness :
  exists r, toDataRequest query_2015_03_01 = Ok r
            /\ options r !! "year" = Some (Str "2015")
            /\ options r !! "month" = Some (Str "03")
            /\ options r !! "day" = Some (Str "01").
Proof.
  apply (proj1 (toDataRequest_2015_03_01 query_2015_03_01));
    (exists 1425168000000; split; [reflexivity|]);
    change (utcMidnight 2015 3 1) with 1425168000000; unfold msPerDay; lia.
Defined.

(** C7 at the sample query. *)
Lemma toDataRequest_grid_area_witness :
  exists r, toDataRequest query_2015_03_01 = Ok r
            /\ options r !! "grid" = Some (Arr ["1"; "1"])
            /\ options r !! "area" = Some (Arr ["48.9"; "2.3"; "48.8"; "2.4"]).
Proof.
  assert (H : exists r, toDataRequest query_2015_03_01 = Ok r)
    by (eexists; vm_compute; reflexivity).
  destruct H as [r Hr]. exists r. split; [exact Hr|].
  apply (proj2 (proj2 (toDataRequest_grid_area query_2015_03_01 r Hr))).
  reflexivity.
Defined.

Lemma store_2015_03_01_holds :
  Store.holds store_2015_03_01 0%nat query_2015_03_01.
Proof.
  exists 1%nat, 6%nat, 3%nat, 2%nat, 2%nat, 4%nat, 5%nat.
  repeat split.
Qed.

(** C8 at the sample store: both calls return the request for
    2015-03-01. *)
Lemma toDataRequest_repeatable_witness :
  exists request date,
    Store.toDataRequest 0%nat store_2015_03_01
    = (Ok request, store_2015_03_01 ++ [date])
    /\ Store.toDataRequest 0%nat (store_2015_03_01 ++ [date])
       = (Ok request, store_2015_03_01 ++ [date; date])
    /\ options request !! "day" = Some (Str "01").
Proof.
  destruct (toDataRequest_repeatable store_2015_03_01 0%nat query_2015_03_01
              store_2015_03_01_holds) as (date & H1 & H2).
  assert (E : exists request, toDataRequest query_2015_03_01 = Ok request
                              /\ options request !! "day" = Some (Str "01")).
  { eexists. split; vm_compute; reflexivity. }
  destruct E as (request & E & Hday). rewrite E in H1, H2.
  exists request, date. auto.
Defined.

(** C9 at the sample query. *)
Lemma toDataRequest_returns_witness :
  exists r, toDataRequest query_2015_03_01 = Ok r.
Proof.
  refine (proj1 (toDataRequest_returns query_2015_03_01 _)).
  assert (Hvalid : valid_Date day_2015_03_01).
  { exists 1425168000000. split; [reflexivity|unfold maxTime; lia]. }
  split; [exact Hvalid|]. split; [exact Hvalid|].
  split; [vm_compute; reflexivity|].
  split; vm_compute; reflexivity.
Defined.


(* ===================================================================== *)
(** ** Further properties of the service *)
(* ===================================================================== *)


Import JSString JSDate QueryService StringFacts DateFacts NumberFacts ServiceFacts.
Import QueryFacts.

(** X1. Sorting loses and repeats nothing: the sorted entities (and the
    sorted dates) are a permutation of the ones given, whatever the
    comparator answers. *)
Theorem sort_permutes {A} (positive : A -> A -> bool) (l : list A) :
  Permutation l (sort positive l).
Proof.
  induction l as [|x l IH]; simpl; [reflexivity|].
  rewrite <- SortFacts.sort_insert_Permutation. now apply perm_skip.
Qed.

(** X2. The sort is stable on a list that is in order already: when the
    comparator is positive on no earlier and later element of the list (so
    too when all are equal), the list comes back as it is. *)
Theorem sort_keeps_ordered {A} (positive : A -> A -> bool) (l : list A) :
  StronglySorted (fun a b => positive a b = false) l -> sort positive l = l.
Proof.
  induction 1 as [|x l Hs IH Hx]; simpl; [reflexivity|].
  rewrite IH. now apply SortFacts.sort_insert_head.
Qed.

(** X3. The copy that [createQuery] puts into ascending order holds exactly
    the dates of the window, each as often as the date list does, from the
    earliest to the latest. *)
Theorem ascending_sorted_window (dates : list Date) :
  Permutation (List.filter inWindow dates) (ascending dates)
  /\ StronglySorted not_later (ascending dates)
  /\ Forall year_in_window (ascending dates).
Proof.
  unfold ascending.
  assert (Hp : Permutation (List.filter inWindow dates)
                 (sort byTime (List.filter inWindow dates))).
  { generalize (List.filter inWindow dates). intros l.
    induction l as [|x l IH]; simpl; [reflexivity|].
    rewrite <- SortFacts.sort_insert_Permutation. now apply perm_skip. }
  assert (Hw : Forall (fun d => inWindow d = true) (List.filter inWindow dates)).
  { apply Forall_forall. intros d Hd%list_elem_of_In. now apply filter_In in Hd. }
  split; [exact Hp|]. split.
  - apply StronglySorted_weaken
      with (P := fun d => is_Some (getTime d)) (R := fun a b => byTime a b = false).
    + intros a b Ha Hb. now apply byTime_not_later.
    + rewrite <- Hp. eapply Forall_impl; [exact Hw|].
      intros d. apply inWindow_valid.
    + apply sort_byTime_sorted. eapply Forall_impl; [exact Hw|].
      intros d. apply inWindow_valid.
  - rewrite <- Hp. eapply Forall_impl; [exact Hw|].
    intros d. apply inWindow_iff.
Qed.

(** X4. The first and the last element of the ascending copy are dates of
    the window, and the first is not later than the last: read from the
    copy, the endpoints of the date range would be in order. *)
Theorem ascending_endpoints (dates : list Date) (first last_ : Date) :
  ascending dates !! 0%nat = Some first ->
  ascending dates !! (length (ascending dates) - 1)%nat = Some last_ ->
  year_in_window first /\ year_in_window last_ /\ not_later first last_.
Proof.
  intros Hf Hl.
  assert (Hw : forall d, In d (ascending dates) -> inWindow d = true).
  { intros d Hd. unfold ascending in Hd. apply sort_In in Hd.
    now apply filter_In in Hd. }
  assert (Hfin : In first (ascending dates))
    by (apply list_elem_of_In, list_elem_of_lookup; eauto).
  assert (Hlin : In last_ (ascending dates))
    by (apply list_elem_of_In, list_elem_of_lookup; eauto).
  split; [apply inWindow_iff, Hw, Hfin|].
  split; [apply inWindow_iff, Hw, Hlin|].
  assert (Hs : StronglySorted (fun a b => byTime a b = false) (ascending dates)).
  { apply sort_byTime_sorted. apply Forall_forall.
    intros d Hd%list_elem_of_In. apply filter_In in Hd as [_ Hd].
    now apply inWindow_valid. }
  apply byTime_not_later; [apply inWindow_valid, Hw, Hfin
                          |apply inWindow_valid, Hw, Hlin|].
  apply (StronglySorted_endpoints (fun a b => byTime a b = false)
           (ascending dates) first last_); auto.
  intros a Ha. apply byTime_not_later; try (apply inWindow_valid, Hw, Ha).
  destruct (inWindow_valid a (Hw a Ha)) as [t Ht].
  unfold not_later, num_ge. rewrite Ht. apply Z.leb_refl.
Qed.

(** X5. [toDates] goes through the entities in their order, and each one
    contributes the date parsed from its text when it is a DATE whose date
    is a number from 2008-01-01T00:00:00Z on, and nothing otherwise: other
    types, texts that do not parse and earlier dates are skipped. *)
Theorem toDates_entity (parse : string -> Date)
    (before : list Entity) (entity : Entity) (after : list Entity) :
  toDates parse (before ++ entity :: after)
  = toDates parse before
    ++ (if String.eqb (Type_ entity) "DATE"
           && num_ge (getTime (parse (Text entity))) (Some 1199145600000)
        then [parse (Text entity)] else [])
    ++ toDates parse after.
Proof.
  unfold toDates. rewrite minDate_time.
  rewrite List.filter_app, List.map_app, List.filter_app. f_equal.
  cbn [List.filter]. destruct (String.eqb (Type_ entity) "DATE"); [|reflexivity].
  cbn [List.map List.filter andb].
  now destruct (num_ge (getTime (parse (Text entity))) (Some 1199145600000)).
Qed.

(** X6. [toLocations] goes through the entities in their order, and each
    one contributes its text when it is a LOCATION, and nothing
    otherwise. *)
Theorem toLocations_entity
    (before : list Entity) (entity : Entity) (after : list Entity) :
  toLocations (before ++ entity :: after)
  = toLocations before
    ++ (if String.eqb (Type_ entity) "LOCATION" then [Text entity] else [])
    ++ toLocations after.
Proof.
  unfold toLocations.
  rewrite List.filter_app, List.map_app. f_equal.
  cbn [List.filter]. now destruct (String.eqb (Type_ entity) "LOCATION").
Qed.

Lemma first_match_spec (test : ClimateVariable -> bool) :
  match List.find test [Temperature; TotalCloudCover; TotalPrecipitation; WindSpeed] with
  | Some v => test v = true
              /\ forall earlier, (ordinal earlier < ordinal v)%nat ->
                                 test earlier = false
  | None => forall v, test v = false
  end.
Proof.
  cbn [List.find].
  destruct (test Temperature) eqn:E1;
    [| destruct (test TotalCloudCover) eqn:E2;
       [| destruct (test TotalPrecipitation) eqn:E3;
          [| destruct (test WindSpeed) eqn:E4 ] ] ];
    try (split; [assumption|]); intros []; cbn [ordinal]; intros; try lia; assumption.
Qed.

Lemma variable_test_more words words' variable :
  (forall word, In word words -> In word words') ->
  variable_test words variable = true -> variable_test words' variable = true.
Proof.
  intros Hsub (stem & word & Hs & Hw & Hp)%variable_test_iff.
  apply variable_test_iff. exists stem, word. auto.
Qed.

(** X7. [toVariable] returns no variable (and [createQuery] then raises
    NoVariableFound) exactly when no stem of any vocabulary is a prefix of
    any extracted keyword. *)
Theorem toVariable_None_iff (extract : string -> list string)
    (stemmer : string -> string) (input : string) :
  toVariable extract stemmer input = None
  <-> forall variable, ~ matches (extract input) variable.
Proof.
  rewrite toVariable_unfold.
  pose proof (first_match_spec (variable_test (extract input))) as H.
  destruct (List.find _ _) as [v|].
  - destruct H as [Hv _]. split; [discriminate|].
    intros Hno. destruct (Hno v). now apply variable_test_iff.
  - split; [|reflexivity]. intros _ v Hm%variable_test_iff.
    rewrite H in Hm. discriminate.
Qed.

(** X8. More keywords never move the answer down the enumeration: when a
    variable is returned for some keywords, then for any keywords that
    include them a variable is returned that is the same or an earlier
    one. *)
Theorem toVariable_more_keywords (extract : string -> list string)
    (stemmer : string -> string) (input input' : string) (variable : ClimateVariable) :
  (forall word, In word (extract input) -> In word (extract input')) ->
  toVariable extract stemmer input = Some variable ->
  exists variable',
    toVariable extract stemmer input' = Some variable'
    /\ (ordinal variable' <= ordinal variable)%nat.
Proof.
  intros Hsub. rewrite !toVariable_unfold.
  pose proof (first_match_spec (variable_test (extract input))) as H.
  pose proof (first_match_spec (variable_test (extract input'))) as H'.
  intros E. rewrite E in H. destruct H as [Hv _].
  apply (variable_test_more _ _ _ Hsub) in Hv.
  destruct (List.find _ _) as [v'|].
  - exists v'. split; [reflexivity|]. destruct H' as [_ Hearlier].
    destruct (le_lt_dec (ordinal v') (ordinal variable)) as [|Hlt]; [assumption|].
    rewrite (Hearlier variable Hlt) in Hv. discriminate.
  - rewrite H' in Hv. discriminate.
Qed.

(** X9. The answer of [toVariable] depends on the set of the extracted
    keywords only: not on their order, not on how often a keyword occurs,
    and not on the stemmer, whose stems are computed and left unused. *)
Theorem toVariable_keyword_set (extract extract' : string -> list string)
    (stemmer stemmer' : string -> string) (input input' : string) :
  (forall word, In word (extract input) <-> In word (extract' input')) ->
  toVariable extract stemmer input = toVariable extract' stemmer' input'.
Proof.
  intros Hsame. rewrite !toVariable_unfold.
  assert (Ht : forall v, variable_test (extract input) v
                         = variable_test (extract' input') v).
  { intros v. apply eq_true_iff_eq. split; apply variable_test_more;
      intros word; apply Hsame. }
  cbn [List.find]. now rewrite !Ht.
Qed.

(** X10. A lone keyword that begins with a stem is classified as the
    variable of that stem: no stem of the table is a prefix of another. *)
Theorem toVariable_lone_keyword (extract : string -> list string)
    (stemmer : string -> string) (input : string)
    (variable : ClimateVariable) (validStem rest : string) :
  In validStem (stems_at variable) ->
  extract input = [validStem +:+ rest] ->
  toVariable extract stemmer input = Some variable.
Proof.
  intros Hin Hwords. rewrite toVariable_unfold, Hwords. clear Hwords.
  destruct variable; vm_compute in Hin;
    repeat (destruct Hin as [<-|Hin]; [destruct rest; vm_compute; reflexivity|]);
    destruct Hin.
Qed.

(** *** The tests of [createQuery] *)

Lemma find_inWindow_iff (parse : string -> Date) (entities : list Entity) :
  truthy_object (List.find inWindow (toDates parse (sort byScore entities))) = true
  <-> has_window_date parse entities.
Proof.
  unfold truthy_object, has_window_date. split.
  - destruct (List.find _ _) as [date|] eqn:E; [|discriminate]. intros _.
    apply find_some in E as [Hin Hw].
    apply toDates_In in Hin as (entity & Hent & Hty & -> & _).
    apply sort_In in Hent. apply inWindow_iff in Hw. exists entity. auto.
  - intros (entity & Hent & Hty & Hwin).
    destruct (List.find _ _) as [date|] eqn:E; [reflexivity|].
    assert (Hin : In (parse (Text entity)) (toDates parse (sort byScore entities))).
    { apply toDates_In. exists entity.
      repeat split; [now apply sort_In|exact Hty|].
      now apply year_in_window_after_minDate. }
    apply (find_none _ _ E) in Hin.
    apply (proj2 (inWindow_iff _)) in Hwin. congruence.
Qed.

Lemma toLocations_In (entities : list Entity) (location : string) :
  In location (toLocations entities)
  <-> exists entity, In entity entities /\ Type_ entity = "LOCATION"
                     /\ Text entity = location.
Proof.
  unfold toLocations. rewrite in_map_iff. split.
  - intros (entity & <- & [Hin Hty%String.eqb_eq]%filter_In). eauto.
  - intros (entity & Hin & Hty & <-). exists entity. split; [reflexivity|].
    apply filter_In. split; [assumption|]. now apply String.eqb_eq.
Qed.

Lemma toLocations_sorted_nil (entities : list Entity) :
  toLocations (sort byScore entities) = [] <-> ~ has_location entities.
Proof.
  unfold has_location. split.
  - intros Hnil (entity & Hin & Hty).
    assert (H : In (Text entity) (toLocations (sort byScore entities))).
    { apply toLocations_In. exists entity. rewrite sort_In. auto. }
    rewrite Hnil in H. destruct H.
  - intros Hno. apply toLocations_nil. intros entity Hin%sort_In Hty.
    apply Hno. eauto.
Qed.

Lemma classic_window (parse : string -> Date) (entities : list Entity) :
  has_window_date parse entities \/ ~ has_window_date parse entities.
Proof.
  destruct (truthy_object
              (List.find inWindow (toDates parse (sort byScore entities)))) eqn:E.
  - left. now apply find_inWindow_iff.
  - right. intros H%find_inWindow_iff. congruence.
Qed.

Section Entities.
Variable SugarDate_create : string -> Date.
Variable KeywordExtractor_extract : string -> list string.
Variable stemmer : string -> string.
Variables GoogleResult Geometry : Type.
Variable getGoogleResult : string -> result GoogleResult.
Variable geometry : GoogleResult -> Geometry.
Variable toGeoCoordinates : Geometry -> result GeoCoordinates.

Abbreviation the_createQuery_entities :=
  (createQuery_entities SugarDate_create KeywordExtractor_extract stemmer
     GoogleResult Geometry getGoogleResult geometry toGeoCoordinates).

Lemma createQuery_entities_no_window input awsEntities :
  ~ has_window_date SugarDate_create awsEntities ->
  the_createQuery_entities input awsEntities = Throw (QueryFailure NoDatesFound).
Proof.
  intros Hno. unfold createQuery_entities.
  destruct (toDates SugarDate_create (sort byScore awsEntities)) as [|date0 rest] eqn:E;
    [reflexivity|].
  destruct (truthy_object (List.find inWindow (date0 :: rest))) eqn:Ef;
    [|reflexivity].
  rewrite <- E in Ef. apply find_inWindow_iff in Ef. contradiction.
Qed.

Lemma createQuery_entities_window input awsEntities :
  has_window_date SugarDate_create awsEntities ->
  exists date0 rest,
    toDates SugarDate_create (sort byScore awsEntities) = date0 :: rest
    /\ the_createQuery_entities input awsEntities
       = match toLocations (sort byScore awsEntities) with
         | [] => Throw (QueryFailure NoLocationsFound)
         | location0 :: _ =>
             googleResult ← getGoogleResult location0;
             geoCoordinates ← toGeoCoordinates (geometry googleResult);
             match toVariable KeywordExtractor_extract stemmer input with
             | None => Throw (QueryFailure NoVariableFound)
             | Some climateVariable =>
                 Ok (mkQuery (Range.mk date0 (List.last (date0 :: rest) date0))
                       googleResult geoCoordinates climateVariable)
             end
         end.
Proof.
  intros Hwin%find_inWindow_iff. unfold createQuery_entities.
  destruct (toDates SugarDate_create (sort byScore awsEntities)) as [|date0 rest] eqn:E;
    [discriminate|].
  exists date0, rest. split; [reflexivity|]. now rewrite Hwin.
Qed.

End Entities.

(** *** The representative instant of [toDataRequest] *)

Lemma midpoint_within a b :
  Z.abs a <= maxTime -> Z.abs b <= maxTime ->
  Z.min a b <= JSNumber.roundHalf (JSNumber.addInt a b) <= Z.max a b.
Proof.
  unfold maxTime, JSNumber.roundHalf, JSNumber.addInt. intros Ha Hb. cbv zeta.
  change (2 ^ 53) with 9007199254740992.
  destruct (Z.abs (a + b) <=? 9007199254740992);
    [Z.div_mod_to_equations; lia|].
  rewrite Zeven_mod.
  destruct (Z.eqb_spec ((a + b) mod 2) 0);
    [Z.div_mod_to_equations; lia|].
  destruct ((a + b + 1) mod 4 =? 0); Z.div_mod_to_equations; lia.
Qed.

Lemma toDataRequest_valid_fields {G} (query : Query G) a b :
  timeValue (Range.min (dateRange query)) = Some a ->
  timeValue (Range.max (dateRange query)) = Some b ->
  Z.abs a <= maxTime -> Z.abs b <= maxTime ->
  exists request t,
    t = JSNumber.roundHalf (JSNumber.addInt b a)
    /\ Z.min a b <= t <= Z.max a b
    /\ toDataRequest query = Ok request
    /\ options request !! "year" = Some (Str (year_piece t))
    /\ options request !! "month" = Some (Str (month_piece t))
    /\ options request !! "day" = Some (Str (day_piece t)).
Proof.
  intros Hmin Hmax Ha Hb.
  destruct (toDataRequest_locals_valid query a b Hmin Hmax Ha Hb)
    as (l & Hl & _ & _ & _ & Hy & Hm & Hd).
  destruct (toDataRequest_of_locals query l Hl) as (r & Hr & Ry & Rm & Rd & _).
  exists r, (JSNumber.roundHalf (JSNumber.addInt b a)).
  cbv zeta in Hy, Hm, Hd. rewrite Hy in Ry. rewrite Hm in Rm. rewrite Hd in Rd.
  split; [reflexivity|]. split.
  - pose proof (midpoint_within b a Hb Ha). lia.
  - auto.
Qed.

Lemma pieces_from_0 t :
  0 <= YearFromTime t ->
  year_piece t = isoYear (YearFromTime t)
  /\ month_piece t = pad 2 (MonthFromTime t + 1)
  /\ day_piece t = pad 2 (DateFromTime t).
Proof.
  intros H. unfold year_piece, month_piece, day_piece.
  destruct (Z.ltb_spec (YearFromTime t) 0); [lia|auto].
Qed.

Lemma last_default {A} (d d' y : A) l :
  List.last (y :: l) d = List.last (y :: l) d'.
Proof.
  revert y. induction l as [|z l IH]; intros y; [reflexivity|].
  change (List.last (z :: l) d = List.last (z :: l) d'). apply IH.
Qed.

Lemma last_In {A} (x : A) l : In (List.last (x :: l) x) (x :: l).
Proof.
  revert x. induction l as [|y l IH]; intros x; [now left|].
  change (List.last (x :: y :: l) x) with (List.last (y :: l) x).
  right. rewrite (last_default x y). apply IH.
Qed.

Section Queries.
Variable SugarDate_create : string -> Date.
Variable KeywordExtractor_extract : string -> list string.
Variable stemmer : string -> string.
Variable extractEntities : string -> result (list Entity).
Variables GoogleResult Geometry : Type.
Variable getGoogleResult : string -> result GoogleResult.
Variable geometry : GoogleResult -> Geometry.
Variable toGeoCoordinates : Geometry -> result GeoCoordinates.

Abbreviation the_createQuery :=
  (createQuery SugarDate_create KeywordExtractor_extract stemmer
     extractEntities GoogleResult Geometry getGoogleResult geometry
     toGeoCoordinates).

Lemma createQuery_of_entities input awsEntities :
  extractEntities input = Ok awsEntities ->
  the_createQuery input
  = createQuery_entities SugarDate_create KeywordExtractor_extract stemmer
      GoogleResult Geometry getGoogleResult geometry toGeoCoordinates
      input awsEntities.
Proof. intros H. unfold createQuery. now rewrite H. Qed.

(** What [createQuery] does once a date of the window and a location are
    there never is one of its own first two failures, when the geocoder
    fails with errors of its own. *)
Lemma geocoded_not_QueryFailure input location e :
  foreign getGoogleResult -> foreign toGeoCoordinates ->
  e <> NoVariableFound ->
  forall date0 dateN,
    (googleResult ← getGoogleResult location;
     geoCoordinates ← toGeoCoordinates (geometry googleResult);
     match toVariable KeywordExtractor_extract stemmer input with
     | None => Throw (QueryFailure NoVariableFound)
     | Some climateVariable =>
         Ok (mkQuery (Range.mk date0 dateN) googleResult geoCoordinates
               climateVariable)
     end) <> Throw (QueryFailure e).
Proof.
  intros Hg Ht He date0 dateN.
  destruct (getGoogleResult location) as [g|f] eqn:Eg; cbn [mbind result_bind].
  - destruct (toGeoCoordinates (geometry g)) as [c|f] eqn:Et;
      cbn [mbind result_bind].
    + destruct (toVariable _ _ _); [discriminate|congruence].
    + intros [= ->]. now apply (Ht (geometry g) e).
  - intros [= ->]. now apply (Hg location e).
Qed.

(** X11. [createQuery] raises NoDatesFound exactly when no DATE entity
    parses to a date with a year in 2008..2017, whatever else the entities
    hold (the geocoder failing with errors of its own only). *)
Theorem createQuery_NoDatesFound_iff input awsEntities :
  extractEntities input = Ok awsEntities ->
  foreign getGoogleResult -> foreign toGeoCoordinates ->
  the_createQuery input = Throw (QueryFailure NoDatesFound)
  <-> ~ has_window_date SugarDate_create awsEntities.
Proof.
  intros Hex Hg Ht. rewrite (createQuery_of_entities _ _ Hex). split.
  - intros Hthrow Hwin.
    destruct (createQuery_entities_window SugarDate_create
                KeywordExtractor_extract stemmer GoogleResult Geometry
                getGoogleResult geometry toGeoCoordinates input awsEntities Hwin)
      as (date0 & rest & _ & Heq).
    rewrite Heq in Hthrow.
    destruct (toLocations (sort byScore awsEntities)); [discriminate|].
    revert Hthrow. now apply geocoded_not_QueryFailure.
  - apply createQuery_entities_no_window.
Qed.

(** X12. [createQuery] raises NoLocationsFound exactly when some DATE
    entity parses to a date of the window and no entity is a LOCATION. *)
Theorem createQuery_NoLocationsFound_iff input awsEntities :
  extractEntities input = Ok awsEntities ->
  foreign getGoogleResult -> foreign toGeoCoordinates ->
  the_createQuery input = Throw (QueryFailure NoLocationsFound)
  <-> has_window_date SugarDate_create awsEntities
      /\ ~ has_location awsEntities.
Proof.
  intros Hex Hg Ht. rewrite (createQuery_of_entities _ _ Hex). split.
  - intros Hthrow.
    destruct (classic_window SugarDate_create awsEntities) as [Hwin|Hno].
    + split; [exact Hwin|].
      destruct (createQuery_entities_window SugarDate_create
                  KeywordExtractor_extract stemmer GoogleResult Geometry
                  getGoogleResult geometry toGeoCoordinates input awsEntities Hwin)
        as (date0 & rest & _ & Heq).
      rewrite Heq in Hthrow. apply toLocations_sorted_nil.
      destruct (toLocations (sort byScore awsEntities)); [reflexivity|].
      exfalso. revert Hthrow. now apply geocoded_not_QueryFailure.
    + rewrite createQuery_entities_no_window in Hthrow by exact Hno.
      discriminate.
  - intros [Hwin Hno%toLocations_sorted_nil].
    destruct (createQuery_entities_window SugarDate_create
                KeywordExtractor_extract stemmer GoogleResult Geometry
                getGoogleResult geometry toGeoCoordinates input awsEntities Hwin)
      as (date0 & rest & _ & Heq).
    now rewrite Heq, Hno.
Qed.

Lemma createQuery_Ok_inv input awsEntities query :
  extractEntities input = Ok awsEntities ->
  the_createQuery input = Ok query ->
  exists date0 rest location0 locations,
    has_window_date SugarDate_create awsEntities
    /\ toDates SugarDate_create (sort byScore awsEntities) = date0 :: rest
    /\ toLocations (sort byScore awsEntities) = location0 :: locations
    /\ getGoogleResult location0 = Ok (googleResult query)
    /\ toGeoCoordinates (geometry (googleResult query)) = Ok (geoCoordinates query)
    /\ toVariable KeywordExtractor_extract stemmer input = Some (variable query)
    /\ dateRange query = Range.mk date0 (List.last (date0 :: rest) date0).
Proof.
  intros Hex Hq. rewrite (createQuery_of_entities _ _ Hex) in Hq.
  destruct (classic_window SugarDate_create awsEntities) as [Hwin|Hno];
    [|rewrite createQuery_entities_no_window in Hq by exact Hno; discriminate].
  destruct (createQuery_entities_window SugarDate_create
              KeywordExtractor_extract stemmer GoogleResult Geometry
              getGoogleResult geometry toGeoCoordinates input awsEntities Hwin)
    as (date0 & rest & Hdates & Heq).
  rewrite Heq in Hq.
  destruct (toLocations (sort byScore awsEntities)) as [|location0 locations];
    [discriminate|].
  destruct (getGoogleResult location0) as [g|] eqn:Eg; [|discriminate].
  cbn [mbind result_bind] in Hq.
  destruct (toGeoCoordinates (geometry g)) as [c|] eqn:Ec; [|discriminate].
  cbn [mbind result_bind] in Hq.
  destruct (toVariable KeywordExtractor_extract stemmer input) as [v|];
    [|discriminate].
  injection Hq as <-. exists date0, rest, location0, locations.
  cbn [googleResult geoCoordinates variable dateRange]. repeat split; auto.
Qed.

(** X13. For finite scores, [createQuery] raises NoVariableFound exactly
    when a date of the window and a location are there, the geocoder has
    answered for the first location in the order of the confidence
    (descending Score, ties in the order of extraction), and no keyword of
    the input matches a vocabulary: the input is classified last. *)
Theorem createQuery_NoVariableFound_iff input awsEntities entities :
  finite_scores awsEntities ->
  by_confidence awsEntities entities ->
  extractEntities input = Ok awsEntities ->
  foreign getGoogleResult -> foreign toGeoCoordinates ->
  the_createQuery input = Throw (QueryFailure NoVariableFound)
  <-> has_window_date SugarDate_create awsEntities
      /\ exists location0 locations googleResult geoCoordinates,
           toLocations entities = location0 :: locations
           /\ getGoogleResult location0 = Ok googleResult
           /\ toGeoCoordinates (geometry googleResult) = Ok geoCoordinates
           /\ toVariable KeywordExtractor_extract stemmer input = None.
Proof.
  intros Hfinite Hby Hex Hg Ht.
  apply (OrderFacts.by_confidence_sort _ _ Hfinite) in Hby. subst entities.
  rewrite (createQuery_of_entities _ _ Hex). split.
  - intros Hthrow.
    destruct (classic_window SugarDate_create awsEntities) as [Hwin|Hno];
      [|rewrite createQuery_entities_no_window in Hthrow by exact Hno;
        discriminate].
    split; [exact Hwin|].
    destruct (createQuery_entities_window SugarDate_create
                KeywordExtractor_extract stemmer GoogleResult Geometry
                getGoogleResult geometry toGeoCoordinates input awsEntities Hwin)
      as (date0 & rest & _ & Heq).
    rewrite Heq in Hthrow.
    destruct (toLocations (sort byScore awsEntities)) as [|location0 locations];
      [discriminate|].
    exists location0, locations.
    destruct (getGoogleResult location0) as [g|f] eqn:Eg;
      cbn [mbind result_bind] in Hthrow;
      [|injection Hthrow as ->; now destruct (Hg location0 NoVariableFound)].
    destruct (toGeoCoordinates (geometry g)) as [c|f] eqn:Ec;
      cbn [mbind result_bind] in Hthrow;
      [|injection Hthrow as ->; now destruct (Ht (geometry g) NoVariableFound)].
    exists g, c.
    destruct (toVariable KeywordExtractor_extract stemmer input);
      [discriminate|auto].
  - intros (Hwin & location0 & locations & g & c & Hl & Hgeo & Hc & Hv).
    destruct (createQuery_entities_window SugarDate_create
                KeywordExtractor_extract stemmer GoogleResult Geometry
                getGoogleResult geometry toGeoCoordinates input awsEntities Hwin)
      as (date0 & rest & _ & Heq).
    rewrite Heq, Hl, Hgeo. cbn [mbind result_bind].
    rewrite Hc. cbn [mbind result_bind]. now rewrite Hv.
Qed.

(** X14. For finite scores, the geocoder is asked about the first location
    in the order of the confidence (descending Score, ties in the order of
    extraction), and when it rejects, [createQuery] fails with its
    rejection, whether or not the input names a climate variable. *)
Theorem createQuery_geocoder_rejects
    input awsEntities entities location0 locations f :
  finite_scores awsEntities ->
  by_confidence awsEntities entities ->
  extractEntities input = Ok awsEntities ->
  has_window_date SugarDate_create awsEntities ->
  toLocations entities = location0 :: locations ->
  getGoogleResult location0 = Throw f ->
  the_createQuery input = Throw f.
Proof.
  intros Hfinite Hby Hex Hwin Hl Hgeo.
  apply (OrderFacts.by_confidence_sort _ _ Hfinite) in Hby. subst entities.
  rewrite (createQuery_of_entities _ _ Hex).
  destruct (createQuery_entities_window SugarDate_create
              KeywordExtractor_extract stemmer GoogleResult Geometry
              getGoogleResult geometry toGeoCoordinates input awsEntities Hwin)
    as (date0 & rest & _ & Heq).
  now rewrite Heq, Hl, Hgeo.
Qed.

(** X15. For finite scores, a query that [createQuery] returns holds the
    answer of the geocoder for the first location in the order of the
    confidence, which is the text of a LOCATION entity that no LOCATION
    entity exceeds in Score, the coordinates derived from the geometry of
    that answer, and the variable that [toVariable] finds in the input. *)
Theorem createQuery_fields input awsEntities entities query :
  finite_scores awsEntities ->
  by_confidence awsEntities entities ->
  extractEntities input = Ok awsEntities ->
  the_createQuery input = Ok query ->
  exists location0 locations entity,
    toLocations entities = location0 :: locations
    /\ In entity awsEntities /\ Type_ entity = "LOCATION"
    /\ Text entity = location0
    /\ (forall other, In other awsEntities -> Type_ other = "LOCATION" ->
                      JSNumber.exact (Score other)
                      <= JSNumber.exact (Score entity))
    /\ getGoogleResult location0 = Ok (googleResult query)
    /\ toGeoCoordinates (geometry (googleResult query))
       = Ok (geoCoordinates query)
    /\ toVariable KeywordExtractor_extract stemmer input
       = Some (variable query).
Proof.
  intros Hfinite Hby Hex Hq.
  pose proof Hby as (Hperm & Hsorted & _).
  apply (OrderFacts.by_confidence_sort _ _ Hfinite) in Hby. subst entities.
  destruct (createQuery_Ok_inv input awsEntities query Hex Hq)
    as (date0 & rest & location0 & locations & _ & _ & Hl & Hg & Hc & Hv & _).
  destruct (OrderFacts.toLocations_first_greatest _ _ _ Hsorted Hl)
    as (entity & Hin%sort_In & Hty & Htext & Hmax).
  exists location0, locations, entity.
  repeat split; try assumption.
  intros other Ho Hto. apply Hmax; [now apply sort_In|exact Hto].
Qed.

(** X16. Each endpoint of the date range of a query that [createQuery]
    returns is the date parsed from the text of a DATE entity, and is a
    valid date not before 2008-01-01T00:00:00Z: the lower bound of the
    window holds for both. *)
Theorem createQuery_endpoints_from_2008 input awsEntities query date :
  extractEntities input = Ok awsEntities ->
  the_createQuery input = Ok query ->
  date = Range.min (dateRange query) \/ date = Range.max (dateRange query) ->
  (exists entity, In entity awsEntities /\ Type_ entity = "DATE"
                  /\ date = SugarDate_create (Text entity))
  /\ exists t y, getTime date = Some t /\ 1199145600000 <= t
                 /\ getUTCFullYear date = Some y /\ 2008 <= y.
Proof.
  intros Hex Hq Hdate.
  destruct (createQuery_Ok_inv input awsEntities query Hex Hq)
    as (date0 & rest & _ & _ & _ & Hdates & _ & _ & _ & _ & Hrange).
  assert (Hin : In date (toDates SugarDate_create (sort byScore awsEntities))).
  { rewrite Hdates, Hrange in *. cbn [Range.min Range.max] in Hdate.
    destruct Hdate as [->| ->]; [now left|apply last_In]. }
  apply toDates_In in Hin as (entity & Hent%sort_In & Hty & Hd & Hge).
  split; [eauto|].
  apply after_minDate_iff in Hge as (t & Ht & Hle).
  exists t, (YearFromTime t). repeat split; [exact Ht|exact Hle| |].
  - unfold getUTCFullYear. unfold getTime in Ht. now rewrite Ht.
  - now apply YearFromTime_2008.
Qed.

(** X17. [toDataRequest] never throws on a query that [createQuery]
    returns (Sugar handing out Dates within the range of time values): the
    request it builds carries the year, the month and the day, in the ISO
    notation, of an instant from 2008 on that lies between the two ends of
    the date range, in whichever order they are. *)
Theorem createQuery_then_toDataRequest input awsEntities query :
  (forall text, wf_Date (SugarDate_create text)) ->
  extractEntities input = Ok awsEntities ->
  the_createQuery input = Ok query ->
  exists request a b t,
    toDataRequest query = Ok request
    /\ getTime (Range.min (dateRange query)) = Some a
    /\ getTime (Range.max (dateRange query)) = Some b
    /\ Z.min a b <= t <= Z.max a b
    /\ 2008 <= YearFromTime t
    /\ options request !! "year" = Some (Str (isoYear (YearFromTime t)))
    /\ options request !! "month" = Some (Str (pad 2 (MonthFromTime t + 1)))
    /\ options request !! "day" = Some (Str (pad 2 (DateFromTime t))).
Proof.
  intros Hwf Hex Hq.
  destruct (createQuery_Ok_inv input awsEntities query Hex Hq)
    as (date0 & rest & _ & _ & _ & Hdates & _ & _ & _ & _ & Hrange).
  assert (Hend : forall date,
             In date (toDates SugarDate_create (sort byScore awsEntities)) ->
             exists t, timeValue date = Some t /\ 1199145600000 <= t
                       /\ Z.abs t <= maxTime).
  { intros date (entity & _ & _ & -> & Hge)%toDates_In.
    apply after_minDate_iff in Hge as (t & Ht & Hle).
    exists t. repeat split; [exact Ht|exact Hle|].
    pose proof (Hwf (Text entity)) as H. unfold wf_Date in H.
    unfold getTime in Ht. now rewrite Ht in H. }
  destruct (Hend (Range.min (dateRange query))) as (a & Ha & Hla & Hra).
  { rewrite Hdates, Hrange. now left. }
  destruct (Hend (Range.max (dateRange query))) as (b & Hb & Hlb & Hrb).
  { rewrite Hdates, Hrange. apply last_In. }
  destruct (toDataRequest_valid_fields query a b Ha Hb Hra Hrb)
    as (request & t & _ & Hbetween & Hr & Ry & Rm & Rd).
  assert (Hyear : 2008 <= YearFromTime t) by (apply YearFromTime_2008; lia).
  destruct (pieces_from_0 t) as (Ey & Em & Ed); [lia|].
  rewrite Ey in Ry. rewrite Em in Rm. rewrite Ed in Rd.
  exists request, a, b, t. auto 10.
Qed.

End Queries.

Lemma fields_of_Day t a :
  Day t = Day a ->
  YearFromTime t = YearFromTime a
  /\ MonthFromTime t = MonthFromTime a
  /\ DateFromTime t = DateFromTime a.
Proof.
  intros H.
  unfold DateFromTime, MonthFromTime, DayWithinYear, InLeapYear, YearFromTime.
  now rewrite H.
Qed.

Lemma sub_self x : JSNumber.finite x = true -> JSNumber.sub x x = S754_zero false.
Proof.
  destruct x as [s|s| |s m e]; try discriminate; intros _.
  - now destruct s.
  - unfold JSNumber.sub, SFsub. now rewrite Z.sub_diag.
Qed.

Section MoreRequests.
Context {GoogleResult : Type}.
Implicit Type query : Query GoogleResult.

(** X18. For valid ends of the date range, [toDataRequest] returns a
    request for the UTC calendar date of an instant between the two ends:
    when the year of that instant is 0 or later, year, month and day are its
    year, month and day in the ISO notation. *)
Theorem toDataRequest_calendar_date query a b :
  timeValue (Range.min (dateRange query)) = Some a ->
  timeValue (Range.max (dateRange query)) = Some b ->
  Z.abs a <= maxTime -> Z.abs b <= maxTime ->
  exists request t,
    toDataRequest query = Ok request
    /\ Z.min a b <= t <= Z.max a b
    /\ (0 <= YearFromTime t ->
        options request !! "year" = Some (Str (isoYear (YearFromTime t)))
        /\ options request !! "month" = Some (Str (pad 2 (MonthFromTime t + 1)))
        /\ options request !! "day" = Some (Str (pad 2 (DateFromTime t)))).
Proof.
  intros Ha Hb Hra Hrb.
  destruct (toDataRequest_valid_fields query a b Ha Hb Hra Hrb)
    as (request & t & _ & Hbetween & Hr & Ry & Rm & Rd).
  exists request, t. split; [exact Hr|]. split; [exact Hbetween|].
  intros Hy. destruct (pieces_from_0 t Hy) as (Ey & Em & Ed).
  now rewrite <- Ey, <- Em, <- Ed.
Qed.

(** X19. For a date range before the year 0 the request is off by one
    field: the sign of the expanded year is taken for a separator, so year
    is the empty string, month holds the six digits of the year, and day
    holds the month. *)
Theorem toDataRequest_before_year_0 query a b :
  timeValue (Range.min (dateRange query)) = Some a ->
  timeValue (Range.max (dateRange query)) = Some b ->
  Z.abs a <= maxTime -> Z.abs b <= maxTime ->
  YearFromTime (Z.max a b) < 0 ->
  exists request t,
    toDataRequest query = Ok request
    /\ Z.min a b <= t <= Z.max a b
    /\ options request !! "year" = Some (Str "")
    /\ options request !! "month" = Some (Str (pad 6 (- YearFromTime t)))
    /\ options request !! "day" = Some (Str (pad 2 (MonthFromTime t + 1))).
Proof.
  intros Ha Hb Hra Hrb Hneg.
  destruct (toDataRequest_valid_fields query a b Ha Hb Hra Hrb)
    as (request & t & _ & Hbetween & Hr & Ry & Rm & Rd).
  exists request, t. split; [exact Hr|]. split; [exact Hbetween|].
  assert (Hy : YearFromTime t < 0).
  { pose proof (YearFromTime_mono t (Z.max a b)). lia. }
  unfold year_piece in Ry. unfold month_piece in Rm. unfold day_piece in Rd.
  destruct (Z.ltb_spec (YearFromTime t) 0); [|lia].
  rewrite Z.abs_neq in Rm by lia. auto.
Qed.

(** X20. When both ends of the date range are valid instants of one UTC day
    of a year from 0 on, the request is for that day. *)
Theorem toDataRequest_same_day query a b :
  timeValue (Range.min (dateRange query)) = Some a ->
  timeValue (Range.max (dateRange query)) = Some b ->
  Z.abs a <= maxTime -> Z.abs b <= maxTime ->
  Day a = Day b -> 0 <= YearFromTime a ->
  exists request,
    toDataRequest query = Ok request
    /\ options request !! "year" = Some (Str (isoYear (YearFromTime a)))
    /\ options request !! "month" = Some (Str (pad 2 (MonthFromTime a + 1)))
    /\ options request !! "day" = Some (Str (pad 2 (DateFromTime a))).
Proof.
  intros Ha Hb Hra Hrb Hday Hyear.
  destruct (toDataRequest_valid_fields query a b Ha Hb Hra Hrb)
    as (request & t & _ & Hbetween & Hr & Ry & Rm & Rd).
  assert (Ht : Day t = Day a).
  { pose proof (Day_mono (Z.min a b) t ltac:(lia)) as Hlo.
    pose proof (Day_mono t (Z.max a b) ltac:(lia)) as Hhi.
    assert (Emin : Day (Z.min a b) = Day a)
      by (destruct (Z.min_spec a b) as [[_ E]|[_ E]]; rewrite E; congruence).
    assert (Emax : Day (Z.max a b) = Day a)
      by (destruct (Z.max_spec a b) as [[_ E]|[_ E]]; rewrite E; congruence).
    lia. }
  destruct (fields_of_Day t a Ht) as (Ey & Em & Ed).
  destruct (pieces_from_0 t) as (Py & Pm & Pd); [lia|].
  rewrite Py, Ey in Ry. rewrite Pm, Em in Rm. rewrite Pd, Ed in Rd.
  exists request. auto.
Qed.

(** X21. When an end of the date range is an Invalid Date,
    [toDataRequest] throws the RangeError of [toISOString]. *)
Theorem toDataRequest_invalid_date query :
  timeValue (Range.min (dateRange query)) = None
  \/ timeValue (Range.max (dateRange query)) = None ->
  toDataRequest query = Throw RangeError.
Proof.
  intros H. unfold toDataRequest, toDataRequest_locals, getTime, midpoint.
  destruct H as [-> | ->];
    [destruct (timeValue (Range.max (dateRange query)))|]; reflexivity.
Qed.

(** X22. For a bounding box that is a single point (equal finite bounds on
    both axes) the grid of the request is ["0", "0"]. *)
Theorem toDataRequest_point_grid query request :
  toDataRequest query = Ok request ->
  JSNumber.finite (Range.min (latitude (geoCoordinates query))) = true ->
  Range.max (latitude (geoCoordinates query))
  = Range.min (latitude (geoCoordinates query)) ->
  JSNumber.finite (Range.min (longitude (geoCoordinates query))) = true ->
  Range.max (longitude (geoCoordinates query))
  = Range.min (longitude (geoCoordinates query)) ->
  options request !! "grid" = Some (Arr ["0"; "0"]).
Proof.
  intros Hr Hflat Hlat Hflon Hlon.
  destruct (toDataRequest_inv query request Hr) as (l & Hl & _).
  destruct (toDataRequest_locals_grid_area query l Hl) as [Hg _].
  destruct (toDataRequest_of_locals query l Hl) as (r' & Hr' & _ & _ & _ & Rg & _).
  assert (r' = request) as -> by congruence.
  rewrite Rg, Hg. cbv zeta. rewrite Hlat, Hlon, !sub_self by assumption.
  reflexivity.
Qed.

(** X23. Every request that [toDataRequest] returns is for the dataset
    reanalysis-era5-single-levels, with product type reanalysis, format
    grib and the variable of the query, and its options have exactly the
    eight properties variable, product_type, grid, area, year, month, day
    and format. *)
Theorem toDataRequest_fixed_part query request :
  toDataRequest query = Ok request ->
  name request = "reanalysis-era5-single-levels"
  /\ options request !! "product_type" = Some (Str "reanalysis")
  /\ options request !! "format" = Some (Format grib)
  /\ options request !! "variable" = Some (Var (variable query))
  /\ dom (options request)
     = list_to_set ["variable"; "product_type"; "grid"; "area";
                    "year"; "month"; "day"; "format"].
Proof.
  intros Hr. unfold toDataRequest in Hr.
  destruct (toDataRequest_locals query) as [l|]; [|discriminate].
  cbn [mbind result_bind] in Hr. injection Hr as <-. cbn [name options].
  split; [reflexivity|].
  split; [repeat (rewrite lookup_insert_ne by discriminate);
          apply lookup_insert_eq|].
  split; [repeat (rewrite lookup_insert_ne by discriminate);
          apply lookup_insert_eq|].
  split; [apply lookup_insert_eq|].
  rewrite !dom_insert_L, dom_empty_L. cbn [list_to_set foldr]. set_solver.
Qed.

End MoreRequests.

Section Running.
Context {GoogleResult : Type}.
Variables World GribLink DownloadLink ResultJson : Type.
Variable requestGrib : DataRequest -> io World GribLink.
Variable requestJsonLink : GribLink -> io World DownloadLink.
Variable link : DownloadLink -> string.
Variable get : string -> io World ResultJson.
Implicit Type query : Query GoogleResult.

Abbreviation the_runQuery :=
  (runQuery World GribLink DownloadLink ResultJson
     requestGrib requestJsonLink link get).

(** X24. On a query with an Invalid Date as an end of its range,
    [runQuery] throws the RangeError before it sends anything: none of the
    collaborators is called, whatever they would answer, and the world is
    as it was. *)
Theorem runQuery_invalid_date query (w : World) :
  timeValue (Range.min (dateRange query)) = None
  \/ timeValue (Range.max (dateRange query)) = None ->
  runQuery World GribLink DownloadLink ResultJson
    requestGrib requestJsonLink link get query w
  = (Throw RangeError, w).
Proof.
  intros H. unfold runQuery, io_of, mbind, io_bind.
  assert (E : toDataRequest query = Throw RangeError).
  { unfold toDataRequest, toDataRequest_locals, getTime, midpoint.
    destruct H as [-> | ->];
      [destruct (timeValue (Range.max (dateRange query)))|]; reflexivity. }
  now rewrite E.
Qed.

(** X25. On a query that meets the invariant, [runQuery] sends the request
    that [toDataRequest] builds, hands the answer of each call to the next
    one, and returns what [get] returns for the link; the first call that
    rejects ends it with that rejection, and the later calls are not
    made. *)
Theorem runQuery_sequence query :
  Query_invariant query ->
  exists request,
    toDataRequest query = Ok request
    /\ (forall w f w1,
           requestGrib request w = (Throw f, w1) ->
           the_runQuery query w = (Throw f, w1))
    /\ (forall w gribLink w1 f w2,
           requestGrib request w = (Ok gribLink, w1) ->
           requestJsonLink gribLink w1 = (Throw f, w2) ->
           the_runQuery query w = (Throw f, w2))
    /\ (forall w gribLink w1 downloadLink w2,
           requestGrib request w = (Ok gribLink, w1) ->
           requestJsonLink gribLink w1 = (Ok downloadLink, w2) ->
           the_runQuery query w = get (link downloadLink) w2).
Proof.
  intros ((a & Ha & Hra) & (b & Hb & Hrb) & _).
  destruct (toDataRequest_valid_fields query a b Ha Hb Hra Hrb)
    as (request & _ & _ & _ & Hr & _).
  exists request. split; [exact Hr|].
  assert (Hrun : forall w,
             the_runQuery query w
             = match requestGrib request w with
               | (Ok gribLink, w1) =>
                   match requestJsonLink gribLink w1 with
                   | (Ok downloadLink, w2) => get (link downloadLink) w2
                   | (Throw f, w2) => (Throw f, w2)
                   end
               | (Throw f, w1) => (Throw f, w1)
               end).
  { intros w. unfold runQuery, io_of, mbind, io_bind. now rewrite Hr. }
  repeat split.
  - intros w f w1 H1. now rewrite Hrun, H1.
  - intros w g w1 f w2 H1 H2. now rewrite Hrun, H1, H2.
  - intros w g w1 d w2 H1 H2. now rewrite Hrun, H1, H2.
Qed.

End Running.

(** X26. On entities with finite scores, the comparator of the sort in
    [createQuery], [(e1, e2) => e2.Score - e1.Score], is positive exactly
    when the second Score is the greater: the rounding of the difference
    keeps its sign. *)
Theorem byScore_positive_iff e1 e2 :
  well_scored e1 -> well_scored e2 ->
  byScore e1 e2 = true
  <-> JSNumber.exact (Score e1) < JSNumber.exact (Score e2).
Proof.
  intros [F1 R1] [F2 R2].
  rewrite (ScoreFacts.byScore_exact e1 e2 F1 R1 F2 R2). apply Z.ltb_lt.
Qed.

(** X27. On entities with finite scores, the sort in [createQuery] puts
    them in the order of their confidence: the same entities, in
    descending order of the Score, those of one Score in the order of
    their extraction; and no other list is in that order. *)
Theorem sort_byScore_by_confidence awsEntities :
  finite_scores awsEntities ->
  by_confidence awsEntities (sort byScore awsEntities)
  /\ forall entities, by_confidence awsEntities entities ->
                      entities = sort byScore awsEntities.
Proof.
  intros Hfinite. split.
  - now apply ConfidenceFacts.sort_by_confidence.
  - intros entities H. now apply OrderFacts.by_confidence_sort.
Qed.

(** *** The further properties on the samples *)

Lemma newDate_wf v : wf_Date (newDate v).
Proof.
  unfold wf_Date, newDate, TimeClip. destruct v as [t|]; cbn; [|exact I].
  destruct (Z.leb_spec (Z.abs t) maxTime); cbn; [assumption|exact I].
Qed.

Lemma sample_invariant : Query_invariant Samples.query_2015_03_01.
Proof.
  assert (Hvalid : valid_Date Samples.day_2015_03_01).
  { exists 1425168000000. split; [reflexivity|unfold maxTime; lia]. }
  split; [exact Hvalid|]. split; [exact Hvalid|].
  split; [vm_compute; reflexivity|].
  split; vm_compute; reflexivity.
Defined.

(** X2 at the sample [late_first], which is in the order of its scores. *)
Lemma sort_keeps_ordered_witness :
  sort byScore Samples.late_first = Samples.late_first.
Proof.
  apply (sort_keeps_ordered byScore Samples.late_first).
  repeat match goal with
         | |- StronglySorted _ _ => constructor
         | |- Forall _ _ => constructor
         | |- _ = false => vm_compute; reflexivity
         end.
Defined.

(** X4 at the dates of the sample [unordered]. *)
Lemma ascending_endpoints_witness :
  year_in_window (newDateOfString "2010-01-01")
  /\ year_in_window (newDateOfString "2016-06-01")
  /\ not_later (newDateOfString "2010-01-01") (newDateOfString "2016-06-01").
Proof.
  apply (ascending_endpoints (toDates Samples.parse Samples.unordered));
    vm_compute; reflexivity.
Defined.

(** X8: the keywords of "so windy" are among those of "so cold and windy". *)
Lemma toVariable_more_keywords_witness :
  exists variable',
    toVariable Samples.keywords Samples.stem "so cold and windy" = Some variable'
    /\ (ordinal variable' <= ordinal WindSpeed)%nat.
Proof.
  apply (toVariable_more_keywords Samples.keywords Samples.stem
           "so windy" "so cold and windy" WindSpeed).
  - vm_compute. tauto.
  - vm_compute. reflexivity.
Defined.

(** X9: the same keywords in another order, with another stemmer. *)
Lemma toVariable_keyword_set_witness :
  toVariable Samples.keywords Samples.stem "windy cold"
  = toVariable Samples.keywords (fun _ => EmptyString) "cold windy cold".
Proof.
  apply (toVariable_keyword_set Samples.keywords Samples.keywords
           Samples.stem (fun _ => EmptyString) "windy cold" "cold windy cold").
  intros word. vm_compute. tauto.
Defined.

(** X10: the lone keyword sunny. *)
Lemma toVariable_lone_keyword_witness :
  toVariable Samples.keywords Samples.stem "sunny" = Some TotalCloudCover.
Proof.
  apply (toVariable_lone_keyword Samples.keywords Samples.stem "sunny"
           TotalCloudCover "sun" "ny").
  - vm_compute. auto.
  - reflexivity.
Defined.

Lemma geocode_foreign : foreign Samples.geocode.
Proof. intros a e. discriminate. Qed.

Lemma identity_foreign : foreign (fun g : GeoCoordinates => Ok g).
Proof. intros a e. discriminate. Qed.

Lemma early_date_no_window : ~ has_window_date Samples.parse Samples.early_date.
Proof.
  intros (entity & [<-|[]] & _ & y & Hy & Hwin).
  vm_compute in Hy. injection Hy as <-. lia.
Qed.

Lemma date_only_window : has_window_date Samples.parse Samples.date_only.
Proof.
  exists (mkEntity "DATE" "2015-03-01" (Samples.score 90)).
  split; [now left|]. split; [reflexivity|].
  exists 2015. split; [vm_compute; reflexivity|lia].
Qed.

Lemma unordered_window : has_window_date Samples.parse Samples.unordered.
Proof.
  exists (mkEntity "DATE" "2016-06-01" (Samples.score 90)).
  split; [now left|]. split; [reflexivity|].
  exists 2016. split; [vm_compute; reflexivity|lia].
Qed.

(** X11 at the sample [early_date]. *)
Lemma createQuery_NoDatesFound_iff_witness :
  Samples.run Samples.early_date Samples.question
  = Throw (QueryFailure NoDatesFound).
Proof.
  apply (proj2 (createQuery_NoDatesFound_iff Samples.parse Samples.keywords
                  Samples.stem (Samples.extract Samples.early_date)
                  GeoCoordinates GeoCoordinates Samples.geocode (fun g => g)
                  (fun g => Ok g) Samples.question Samples.early_date
                  eq_refl geocode_foreign identity_foreign)).
  exact early_date_no_window.
Defined.

(** X12 at the sample [date_only]. *)
Lemma createQuery_NoLocationsFound_iff_witness :
  Samples.run Samples.date_only Samples.question
  = Throw (QueryFailure NoLocationsFound).
Proof.
  apply (proj2 (createQuery_NoLocationsFound_iff Samples.parse Samples.keywords
                  Samples.stem (Samples.extract Samples.date_only)
                  GeoCoordinates GeoCoordinates Samples.geocode (fun g => g)
                  (fun g => Ok g) Samples.question Samples.date_only
                  eq_refl geocode_foreign identity_foreign)).
  split; [exact date_only_window|].
  intros (entity & [<-|[]] & Hty). discriminate.
Defined.

Lemma shuffled_sorted :
  by_confidence Samples.shuffled Samples.shuffled_by_confidence.
Proof.
  assert (E : sort byScore Samples.shuffled = Samples.shuffled_by_confidence)
    by (vm_compute; reflexivity).
  rewrite <- E.
  apply ConfidenceFacts.sort_by_confidence, shuffled_finite.
Qed.

Lemma shuffled_window : has_window_date Samples.parse Samples.shuffled.
Proof.
  exists (mkEntity "DATE" "2010-01-01" (Samples.score 80)).
  split; [right; now left|]. split; [reflexivity|].
  exists 2010. split; [vm_compute; reflexivity|lia].
Qed.

Lemma shuffled_runs :
  exists query, Samples.run Samples.shuffled Samples.question = Ok query.
Proof. eexists. vm_compute. reflexivity. Defined.

(** X13 at the sample [shuffled], asked a question without a climate
    word: Paris, the fourth in the order of the confidence, is the first
    location. *)
Lemma createQuery_NoVariableFound_iff_witness :
  Samples.run Samples.shuffled Samples.dull_question
  = Throw (QueryFailure NoVariableFound).
Proof.
  apply (proj2 (createQuery_NoVariableFound_iff Samples.parse Samples.keywords
                  Samples.stem (Samples.extract Samples.shuffled)
                  GeoCoordinates GeoCoordinates Samples.geocode (fun g => g)
                  (fun g => Ok g) Samples.dull_question Samples.shuffled
                  Samples.shuffled_by_confidence
                  shuffled_finite shuffled_sorted
                  eq_refl geocode_foreign identity_foreign)).
  split; [exact shuffled_window|].
  exists "Paris", ["Lyon"], Samples.paris, Samples.paris.
  repeat split; vm_compute; reflexivity.
Defined.

(** X14 at the sample [shuffled], with a geocoder that rejects. *)
Lemma createQuery_geocoder_rejects_witness :
  createQuery Samples.parse Samples.keywords Samples.stem
    (Samples.extract Samples.shuffled) GeoCoordinates GeoCoordinates
    Samples.geocode_down (fun g => g) (fun g => Ok g) Samples.dull_question
  = Throw (Rejected "ZERO_RESULTS").
Proof.
  apply (createQuery_geocoder_rejects Samples.parse Samples.keywords
           Samples.stem (Samples.extract Samples.shuffled) GeoCoordinates
           GeoCoordinates Samples.geocode_down (fun g => g) (fun g => Ok g)
           Samples.dull_question Samples.shuffled
           Samples.shuffled_by_confidence "Paris" ["Lyon"]).
  - exact shuffled_finite.
  - exact shuffled_sorted.
  - reflexivity.
  - exact shuffled_window.
  - reflexivity.
  - reflexivity.
Defined.

Lemma unordered_runs :
  exists query, Samples.run Samples.unordered Samples.question = Ok query.
Proof. eexists. vm_compute. reflexivity. Defined.

(** X15 at the sample [shuffled]: the location of the query is Paris,
    of Score 0.6, not Lyon, of Score 0.4, which is extracted first. *)
Lemma createQuery_fields_witness :
  exists query entity,
    Samples.run Samples.shuffled Samples.question = Ok query
    /\ In entity Samples.shuffled
    /\ Text entity = "Paris"
    /\ Samples.geocode (Text entity) = Ok (googleResult query)
    /\ toVariable Samples.keywords Samples.stem Samples.question
       = Some (variable query).
Proof.
  destruct shuffled_runs as [query Hq]. exists query.
  destruct (createQuery_fields Samples.parse Samples.keywords Samples.stem
              (Samples.extract Samples.shuffled) GeoCoordinates GeoCoordinates
              Samples.geocode (fun g => g) (fun g => Ok g) Samples.question
              Samples.shuffled Samples.shuffled_by_confidence query
              shuffled_finite shuffled_sorted eq_refl Hq)
    as (location0 & locations & entity & Hl & Hin & _ & Htext & _ & Hg & _ & Hv).
  injection Hl as <- _. exists entity. rewrite Htext. auto.
Defined.

(** X16 at the sample [unordered]. *)
Lemma createQuery_endpoints_from_2008_witness :
  exists query,
    Samples.run Samples.unordered Samples.question = Ok query
    /\ exists t y, getTime (Range.min (dateRange query)) = Some t
                   /\ 1199145600000 <= t
                   /\ getUTCFullYear (Range.min (dateRange query)) = Some y
                   /\ 2008 <= y.
Proof.
  destruct unordered_runs as [query Hq]. exists query. split; [exact Hq|].
  apply (createQuery_endpoints_from_2008 Samples.parse Samples.keywords
           Samples.stem (Samples.extract Samples.unordered) GeoCoordinates
           GeoCoordinates Samples.geocode (fun g => g) (fun g => Ok g)
           Samples.question Samples.unordered query
           (Range.min (dateRange query)) eq_refl Hq).
  now left.
Defined.

(** X17 at the sample [unordered]. *)
Lemma createQuery_then_toDataRequest_witness :
  exists query request,
    Samples.run Samples.unordered Samples.question = Ok query
    /\ toDataRequest query = Ok request.
Proof.
  destruct unordered_runs as [query Hq]. exists query.
  destruct (createQuery_then_toDataRequest Samples.parse Samples.keywords
              Samples.stem (Samples.extract Samples.unordered) GeoCoordinates
              GeoCoordinates Samples.geocode (fun g => g) (fun g => Ok g)
              Samples.question Samples.unordered query
              (fun text => newDate_wf _) eq_refl Hq)
    as (request & _ & _ & _ & Hr & _).
  exists request. auto.
Defined.

(** X18 at the sample query. *)
Lemma toDataRequest_calendar_date_witness :
  exists request t,
    toDataRequest Samples.query_2015_03_01 = Ok request
    /\ Z.min 1425168000000 1425168000000 <= t
       <= Z.max 1425168000000 1425168000000
    /\ (0 <= YearFromTime t ->
        options request !! "year" = Some (Str (isoYear (YearFromTime t)))
        /\ options request !! "month" = Some (Str (pad 2 (MonthFromTime t + 1)))
        /\ options request !! "day" = Some (Str (pad 2 (DateFromTime t)))).
Proof.
  apply (toDataRequest_calendar_date Samples.query_2015_03_01
           1425168000000 1425168000000);
    try reflexivity; unfold maxTime; lia.
Defined.

(** X19 at a query on 1 January of the year before the year 0. *)
Lemma toDataRequest_before_year_0_witness :
  exists request t,
    toDataRequest Samples.query_before_0 = Ok request
    /\ Z.min (-62198755200000) (-62198755200000) <= t
       <= Z.max (-62198755200000) (-62198755200000)
    /\ options request !! "year" = Some (Str "")
    /\ options request !! "month" = Some (Str (pad 6 (- YearFromTime t)))
    /\ options request !! "day" = Some (Str (pad 2 (MonthFromTime t + 1))).
Proof.
  apply (toDataRequest_before_year_0 Samples.query_before_0
           (-62198755200000) (-62198755200000));
    try reflexivity; unfold maxTime; lia.
Defined.

(** X20 at the sample query. *)
Lemma toDataRequest_same_day_witness :
  exists request,
    toDataRequest Samples.query_2015_03_01 = Ok request
    /\ options request !! "year"
       = Some (Str (isoYear (YearFromTime 1425168000000)))
    /\ options request !! "month"
       = Some (Str (pad 2 (MonthFromTime 1425168000000 + 1)))
    /\ options request !! "day"
       = Some (Str (pad 2 (DateFromTime 1425168000000))).
Proof.
  apply (toDataRequest_same_day Samples.query_2015_03_01
           1425168000000 1425168000000);
    try reflexivity; try (unfold maxTime; lia).
  vm_compute. discriminate.
Defined.

(** X21 at a query whose later end is an Invalid Date. *)
Lemma toDataRequest_invalid_date_witness :
  toDataRequest Samples.query_invalid = Throw RangeError.
Proof.
  apply (toDataRequest_invalid_date Samples.query_invalid). now right.
Defined.

Lemma query_before_0_request :
  exists request, toDataRequest Samples.query_before_0 = Ok request.
Proof. eexists. vm_compute. reflexivity. Defined.

(** X22 at a query on a single point. *)
Lemma toDataRequest_point_grid_witness :
  exists request,
    toDataRequest Samples.query_before_0 = Ok request
    /\ options request !! "grid" = Some (Arr ["0"; "0"]).
Proof.
  destruct query_before_0_request as [request Hr].
  exists request. split; [exact Hr|].
  apply (toDataRequest_point_grid Samples.query_before_0 request Hr);
    reflexivity.
Defined.

Lemma sample_request :
  exists request, toDataRequest Samples.query_2015_03_01 = Ok request.
Proof. eexists. vm_compute. reflexivity. Defined.

(** X23 at the sample query. *)
Lemma toDataRequest_fixed_part_witness :
  exists request,
    toDataRequest Samples.query_2015_03_01 = Ok request
    /\ name request = "reanalysis-era5-single-levels".
Proof.
  destruct sample_request as [request Hr]. exists request. split; [exact Hr|].
  apply (toDataRequest_fixed_part Samples.query_2015_03_01 request Hr).
Defined.

(** X24 at a query whose later end is an Invalid Date, with collaborators
    that log what they are asked: the log stays as it is. *)
Lemma runQuery_invalid_date_witness :
  Samples.run_log Samples.query_invalid [] = (Throw RangeError, []).
Proof.
  apply (runQuery_invalid_date (list string) string string string
           Samples.requestGrib_log Samples.requestJsonLink_log (fun l => l)
           Samples.get_log Samples.query_invalid []).
  now right.
Defined.

Lemma toDataRequest_fixed_part_at request :
  toDataRequest Samples.query_2015_03_01 = Ok request ->
  name request = "reanalysis-era5-single-levels".
Proof.
  intros Hr. unfold toDataRequest in Hr.
  destruct (toDataRequest_locals Samples.query_2015_03_01); [|discriminate].
  cbn [mbind result_bind] in Hr. now injection Hr as <-.
Defined.

(** X25 at the sample query, with collaborators that log what they are
    asked. *)
Lemma runQuery_sequence_witness :
  exists request,
    toDataRequest Samples.query_2015_03_01 = Ok request
    /\ Samples.run_log Samples.query_2015_03_01 [] =
       (Ok "{}",
        ["requestGrib reanalysis-era5-single-levels";
         "requestJsonLink grib"; "get json"]).
Proof.
  destruct (runQuery_sequence (list string) string string string
              Samples.requestGrib_log Samples.requestJsonLink_log (fun l => l)
              Samples.get_log Samples.query_2015_03_01 sample_invariant)
    as (request & Hr & _ & _ & Hok).
  exists request. split; [exact Hr|].
  unfold Samples.run_log.
  rewrite (Hok [] "grib" ["requestGrib " +:+ name request] "json"
             ["requestGrib " +:+ name request; "requestJsonLink grib"]
             eq_refl eq_refl).
  rewrite (toDataRequest_fixed_part_at request Hr). reflexivity.
Defined.

(** X26 at two entities of the sample [shuffled]: Lyon, of Score 0.4, is to
    come after Paris, of Score 0.6. *)
Lemma byScore_positive_iff_witness :
  byScore (mkEntity "LOCATION" "Lyon" (Samples.score 40))
    (mkEntity "LOCATION" "Paris" (Samples.score 60)) = true.
Proof.
  apply (proj2 (byScore_positive_iff
                  (mkEntity "LOCATION" "Lyon" (Samples.score 40))
                  (mkEntity "LOCATION" "Paris" (Samples.score 60))
                  (conj eq_refl eq_refl) (conj eq_refl eq_refl))).
  vm_compute. reflexivity.
Defined.

(** X27 at the sample [shuffled]. *)
Lemma sort_byScore_by_confidence_witness :
  by_confidence Samples.shuffled (sort byScore Samples.shuffled).
Proof.
  apply (proj1 (sort_byScore_by_confidence Samples.shuffled shuffled_finite)).
Defined.
